(** * ONIX 3.1 document encoder ([app/services/onix_service.py])

    A shallow embedding of [OnixXmlGenerator] and of the call site in
    [app/api/products.py], together with the properties of the encoder.

    The Python code builds an lxml tree by mutation: every
    [etree.SubElement(parent, tag)] appends a fresh element to [parent],
    and [elem.text = v] overwrites the text of an element.  The embedding
    keeps that shape: elements live in a store, handles are indices into
    it, and the builders are written in a state-and-exception monad whose
    lines correspond one to one to the lines of the source. *)

From Stdlib Require Import ZArith List String Ascii Floats Lia Bool DecimalString.
From stdpp Require Import base tactics option list strings.

Local Open Scope string_scope.
Local Open Scope list_scope.
Local Open Scope Z_scope.

(** ** Python values *)

(** Python [str] values are represented by their UTF-8 encoding, one
    [ascii] per byte. *)

(** The contents of the JSONB column [Product.onix_json] as Python sees
    them after decoding.  A [dict] is kept as its list of items in
    insertion order; [PDict] values coming from JSON have distinct keys. *)
#[local] Unset Elimination Schemes.
Inductive pyval : Type :=
  | PNone
  | PBool (b : bool)
  | PInt (n : Z)
  | PFloat (f : float)
  | PStr (s : string)
  | PList (l : list pyval)
  | PDict (d : list (string * pyval)).
#[local] Set Elimination Schemes.

(** Exceptions.  The encoder raises none itself: [TypeError] and
    [AttributeError] come from Python, [TypeError] and [ValueError] from
    lxml.  The export endpoint raises [HTTPException], and SQLAlchemy's
    [scalar_one_or_none] raises [MultipleResultsFound]. *)
Inductive exn : Type :=
  | TypeError
  | AttributeError
  | ValueError
  | MultipleResultsFound
  | HTTPException (status_code : Z).

Inductive result (A : Type) : Type :=
  | Ok (a : A)
  | Raise (e : exn).
Arguments Ok {A} a.
Arguments Raise {A} e.

(** [bool(v)] *)
Definition py_truthy (v : pyval) : bool :=
  match v with
  | PNone => false
  | PBool b => b
  | PInt n => negb (n =? 0)
  | PFloat f => negb (PrimFloat.eqb f 0%float)
  | PStr s => negb (String.eqb s "")
  | PList l => match l with [] => false | _ => true end
  | PDict d => match d with [] => false | _ => true end
  end.

(** Truthiness of a [str] and of an [Optional[str]] attribute. *)
Definition str_truthy (s : string) : bool := negb (String.eqb s "").

Definition opt_truthy (o : option string) : bool :=
  match o with
  | Some s => str_truthy s
  | None => false
  end.

(** [o or default] for an [Optional[str]] attribute. *)
Definition or_default (o : option string) (default : string) : string :=
  match o with
  | Some s => if str_truthy s then s else default
  | None => default
  end.

(** Lookup in the items of a [dict]. *)
Fixpoint assoc (key : string) (d : list (string * pyval)) : option pyval :=
  match d with
  | [] => None
  | (k, v) :: rest => if String.eqb k key then Some v else assoc key rest
  end.

(** [v.get(key, default)]: only a [dict] has a [get] method. *)
Definition py_get (v : pyval) (key : string) (default : pyval) : result pyval :=
  match v with
  | PDict d => Ok (match assoc key d with Some x => x | None => default end)
  | _ => Raise AttributeError
  end.

(** The characters of a [str]: a byte [10xxxxxx] continues the character
    begun before it. *)
Definition is_continuation (c : ascii) : bool :=
  let n := Z.of_nat (nat_of_ascii c) in (128 <=? n) && (n <? 192).

Fixpoint utf8_chars_go (cur : string) (rest : list ascii) : list string :=
  match rest with
  | [] => [cur]
  | c :: rest' =>
      if is_continuation c
      then utf8_chars_go (cur +:+ String c "") rest'
      else cur :: utf8_chars_go (String c "") rest'
  end.

Definition utf8_chars (s : string) : list string :=
  match list_ascii_of_string s with
  | [] => []
  | c :: rest => utf8_chars_go (String c "") rest
  end.

(** [for x in v]: the items a [for] loop walks through. *)
Definition py_iter (v : pyval) : result (list pyval) :=
  match v with
  | PList l => Ok l
  | PDict d => Ok (map (fun kv => PStr (fst kv)) d)
  | PStr s => Ok (map PStr (utf8_chars s))
  | _ => Raise TypeError
  end.

(** ** [str()] *)

(** [str(n)] for an [int]. *)
Definition str_int (n : Z) : string := NilZero.string_of_int (Z.to_int n).

Fixpoint zeros (n : nat) : string :=
  match n with
  | O => ""
  | S n' => "0" +:+ zeros n'
  end.

(** Decimal digits of [n], left-padded with zeros to [width]. *)
Definition pad (width : nat) (n : Z) : string :=
  let s := str_int n in
  zeros (width - String.length s) +:+ s.

Module FloatRepr.

(** [repr] of a [float] (which is also its [str]): the shortest decimal
    string that reads back as the same binary64 value, the closest to the
    value among those, laid out in fixed notation when the decimal point
    falls within [-4 < decpt <= 16] and in exponent notation otherwise. *)

(** The value [m * 2^e] and the interval of reals that round to it,
    over one denominator: [(lo, v, hi)] as numerators. *)
Definition interval (m e : Z) : Z * Z * Z * Z :=
  let lo4 := if (m =? 2 ^ 52) && (-1074 <? e) then 4 * m - 1 else 4 * m - 2 in
  let v4 := 4 * m in
  let hi4 := 4 * m + 2 in
  let s := e - 2 in
  if 0 <=? s
  then (lo4 * 2 ^ s, v4 * 2 ^ s, hi4 * 2 ^ s, 1)
  else (lo4, v4, hi4, 2 ^ (- s)).

(** Largest [E] with [10^E <= n/d], searched upwards from [E]. *)
Fixpoint log10_up (fuel : nat) (n d : Z) (E : Z) : Z :=
  match fuel with
  | O => E
  | S fuel' => if d * 10 <=? n then log10_up fuel' n (d * 10) (E + 1) else E
  end.

Fixpoint log10_down (fuel : nat) (n d : Z) (E : Z) : Z :=
  match fuel with
  | O => E
  | S fuel' => if d <=? n then E else log10_down fuel' (n * 10) d (E - 1)
  end.

Definition floor_log10 (n d : Z) : Z :=
  if d <=? n then log10_up 400 n d 0 else log10_down 400 n d 0.

(** [n / d * 10^(-k)] as a fraction. *)
Definition scale10 (n d k : Z) : Z * Z :=
  if 0 <=? k then (n, d * 10 ^ k) else (n * 10 ^ (- k), d).

(** The decimal [c * 10^k] with [digits] significant digits that rounds
    to the float, if there is one; the closer of the two neighbours of
    the value, the even one on a tie. *)
Definition candidate (even : bool) (lo v hi d : Z) (E : Z) (digits : Z)
  : option (Z * Z) :=
  let k := E - (digits - 1) in
  let '(vn, vd) := scale10 v d k in
  let '(ln, _) := scale10 lo d k in
  let '(hn, _) := scale10 hi d k in
  let c0 := vn / vd in
  let c1 := c0 + 1 in
  let ok0 := if even then ln <=? c0 * vd else ln <? c0 * vd in
  let ok1 := if even then c1 * vd <=? hn else c1 * vd <? hn in
  let below := vn - c0 * vd in
  let above := c1 * vd - vn in
  match ok0, ok1 with
  | true, true =>
      if below <? above then Some (c0, k)
      else if above <? below then Some (c1, k)
      else if Z.even c0 then Some (c0, k) else Some (c1, k)
  | true, false => Some (c0, k)
  | false, true => Some (c1, k)
  | false, false => None
  end.

Fixpoint shortest_go (fuel : nat) (even : bool) (lo v hi d E digits : Z)
  : Z * Z :=
  match fuel with
  | O => (0, 0)
  | S fuel' =>
      match candidate even lo v hi d E digits with
      | Some r => r
      | None => shortest_go fuel' even lo v hi d E (digits + 1)
      end
  end.

(** Drop the trailing zeros of [c * 10^k]. *)
Fixpoint strip_zeros (fuel : nat) (c k : Z) : Z * Z :=
  match fuel with
  | O => (c, k)
  | S fuel' =>
      if (c mod 10 =? 0) && negb (c =? 0)
      then strip_zeros fuel' (c / 10) (k + 1)
      else (c, k)
  end.

(** Digits and position of the decimal point: the value is
    [0.digits * 10^decpt]. *)
Definition shortest (m e : Z) : string * Z :=
  let '(lo, v, hi, d) := interval m e in
  let E := floor_log10 v d in
  let '(c, k) := shortest_go 18 (Z.even m) lo v hi d E 1 in
  let '(c', k') := strip_zeros 20 c k in
  let ds := str_int c' in
  (ds, k' + Z.of_nat (String.length ds)).

Definition exponent_part (x : Z) : string :=
  (if x <? 0 then "e-" else "e+") +:+ pad 2 (Z.abs x).

Definition layout (ds : string) (decpt : Z) : string :=
  let len := Z.of_nat (String.length ds) in
  if (decpt <=? -4) || (16 <? decpt)
  then
    match ds with
    | EmptyString => ""
    | String c rest =>
        String c (match rest with EmptyString => "" | _ => "." +:+ rest end)
        +:+ exponent_part (decpt - 1)
    end
  else if decpt <=? 0
  then "0." +:+ zeros (Z.to_nat (- decpt)) +:+ ds
  else if decpt <? len
  then substring 0 (Z.to_nat decpt) ds +:+ "."
       +:+ substring (Z.to_nat decpt) (Z.to_nat (len - decpt)) ds
  else ds +:+ zeros (Z.to_nat (decpt - len)) +:+ ".0".

Definition sign (s : bool) : string := if s then "-" else "".

Definition repr (f : float) : string :=
  match Prim2SF f with
  | S754_zero s => sign s +:+ "0.0"
  | S754_infinity s => sign s +:+ "inf"
  | S754_nan => "nan"
  | S754_finite s m e =>
      let '(ds, decpt) := shortest (Zpos m) e in
      sign s +:+ layout ds decpt
  end.

End FloatRepr.

(** [str(u)] for a [uuid.UUID]: the 128 bits in hexadecimal, grouped
    8-4-4-4-12. *)
Definition uuid : Type := Z.

Definition hex_digit (n : Z) : ascii :=
  match n with
  | 0 => "0" | 1 => "1" | 2 => "2" | 3 => "3" | 4 => "4" | 5 => "5"
  | 6 => "6" | 7 => "7" | 8 => "8" | 9 => "9" | 10 => "a" | 11 => "b"
  | 12 => "c" | 13 => "d" | 14 => "e" | _ => "f"
  end%char.

Fixpoint hex_fixed (width : nat) (n : Z) : string :=
  match width with
  | O => ""
  | S w => hex_fixed w (n / 16) +:+ String (hex_digit (n mod 16)) ""
  end.

Definition str_uuid (u : uuid) : string :=
  let h := hex_fixed 32 (u mod 2 ^ 128) in
  substring 0 8 h +:+ "-" +:+ substring 8 4 h +:+ "-" +:+ substring 12 4 h
  +:+ "-" +:+ substring 16 4 h +:+ "-" +:+ substring 20 12 h.

(** A reading of the wall clock, and [strftime("%Y%m%dT%H%M%S")]. *)
Record datetime := Datetime {
  year : Z; month : Z; day : Z;
  hour : Z; minute : Z; second : Z; microsecond : Z
}.

Definition strftime (t : datetime) : string :=
  pad 4 (year t) +:+ pad 2 (month t) +:+ pad 2 (day t) +:+ "T"
  +:+ pad 2 (hour t) +:+ pad 2 (minute t) +:+ pad 2 (second t).

(** ** The data model ([app/models/models.py])

    Columns the encoder and the export endpoint never read ([embedding],
    [created_at], [updated_at]) are left out. *)

Module Publisher.
Record t := Make { id : uuid; name : string; gln : option string }.
End Publisher.

Module Author.
Record t := Make { id : uuid; full_name : string; biography : option string }.
End Author.

Module Collection.
Record t := Make { id : uuid; title : string; issn : option string }.
End Collection.

Module ProductAuthor.
Record t := Make {
  product_id : uuid;
  author_id : uuid;
  role_code : string;
  sequence_number : Z
}.
End ProductAuthor.

Module Product.
Record t := Make {
  id : uuid;
  isbn_13 : option string;
  title : string;
  publisher_id : option uuid;
  collection_id : option uuid;
  product_form : option string;
  language : option string;
  onix_json : pyval;
  authors : list ProductAuthor.t
}.
End Product.

(** The tables the export endpoint queries. *)
Record database := Database {
  products : list Product.t;
  authors : list Author.t;
  publishers : list Publisher.t;
  collections : list Collection.t
}.

(** ** lxml elements *)

(** A handle on an element: its index in the store. *)
Definition elem : Type := nat.

Record node := Node {
  tag : string;
  nsmap : option string;
  attrib : list (string * string);
  text : option string;
  children : list elem
}.

(** An element together with everything below it. *)
#[local] Unset Elimination Schemes.
Inductive xml : Type :=
  | Elem (tag : string) (nsmap : option string)
         (attrib : list (string * string)) (text : option string)
         (children : list xml).
#[local] Set Elimination Schemes.

Definition xtag (t : xml) : string := let 'Elem tg _ _ _ _ := t in tg.
Definition xnsmap (t : xml) : option string := let 'Elem _ ns _ _ _ := t in ns.
Definition xattrib (t : xml) : list (string * string) :=
  let 'Elem _ _ a _ _ := t in a.
Definition xtext (t : xml) : option string := let 'Elem _ _ _ tx _ := t in tx.
Definition xchildren (t : xml) : list xml := let 'Elem _ _ _ _ ks := t in ks.

(** The tree below a handle.  [fuel] bounds the depth; the number of
    elements in the store is always enough. *)
Fixpoint to_tree (fuel : nat) (store : list node) (e : elem) : option xml :=
  match fuel with
  | O => None
  | S fuel' =>
      match store !! e with
      | None => None
      | Some n =>
          match mapM (to_tree fuel' store) (children n) with
          | None => None
          | Some kids => Some (Elem (tag n) (nsmap n) (attrib n) (text n) kids)
          end
      end
  end.

(** What lxml accepts as text: no control characters other than tab,
    newline and carriage return, no U+FFFE or U+FFFF, no surrogates. *)
Fixpoint valid_xml_utf8 (bytes : list Z) : bool :=
  match bytes with
  | [] => true
  | b :: rest =>
      let bad :=
        if b <? 32 then negb ((b =? 9) || (b =? 10) || (b =? 13))
        else match rest with
             | b1 :: b2 :: _ =>
                 ((b =? 239) && (b1 =? 191) && ((b2 =? 190) || (b2 =? 191)))
                 || ((b =? 237) && (160 <=? b1))
             | _ => false
             end in
      negb bad && valid_xml_utf8 rest
  end.

Definition xml_compatible (s : string) : bool :=
  valid_xml_utf8 (map (fun c => Z.of_nat (nat_of_ascii c)) (list_ascii_of_string s)).

(** ** The state the code runs in *)

Record world := World {
  w_clock : datetime;   (* what [datetime.now()] reads *)
  w_db : database;      (* the rows the aggregate is loaded from *)
  w_nodes : list node   (* the lxml elements allocated so far *)
}.

Definition set_nodes (w : world) (store : list node) : world :=
  {| w_clock := w_clock w; w_db := w_db w; w_nodes := store |}.

(** State and exceptions: an exception keeps the state reached. *)
Definition M (A : Type) : Type := world -> result A * world.

Definition ret {A} (a : A) : M A := fun w => (Ok a, w).

Definition raise {A} (e : exn) : M A := fun w => (Raise e, w).

Definition bind {A B} (m : M A) (k : A -> M B) : M B :=
  fun w =>
    match m w with
    | (Ok a, w') => k a w'
    | (Raise e, w') => (Raise e, w')
    end.

Definition lift {A} (r : result A) : M A := fun w => (r, w).

Declare Scope py_scope.
Delimit Scope py_scope with py.
Notation "x <- m ;; k" := (bind m (fun x => k))
  (at level 100, m at next level, right associativity) : py_scope.
Notation "m ;; k" := (bind m (fun _ => k))
  (at level 100, right associativity) : py_scope.
Local Open Scope py_scope.

(** [for x in l: body] *)
Fixpoint for_each {A} (l : list A) (body : A -> M unit) : M unit :=
  match l with
  | [] => ret tt
  | x :: l' => body x ;; for_each l' body
  end.

(** [enumerate(l, start)] *)
Fixpoint enumerate {A} (start : Z) (l : list A) : list (Z * A) :=
  match l with
  | [] => []
  | x :: l' => (start, x) :: enumerate (start + 1) l'
  end.

(** [datetime.now()] *)
Definition now : M datetime := fun w => (Ok (w_clock w), w).

Definition add_child (child : elem) (n : node) : node :=
  {| tag := tag n; nsmap := nsmap n; attrib := attrib n; text := text n;
     children := children n ++ [child] |}.

Definition with_text (tx : option string) (n : node) : node :=
  {| tag := tag n; nsmap := nsmap n; attrib := attrib n; text := tx;
     children := children n |}.

(** [etree.Element(tag, nsmap={None: ns}, **attrib)] *)
Definition Element (tg : string) (ns : option string)
    (attrs : list (string * string)) : M elem :=
  fun w =>
    (Ok (length (w_nodes w)),
     set_nodes w (w_nodes w ++ [Node tg ns attrs None []])).

(** [etree.SubElement(parent, tag)]: the new element becomes the last
    child of [parent].  Handles only come from [Element] and
    [SubElement], so [parent] is always in the store. *)
Definition SubElement (parent : elem) (tg : string) : M elem :=
  fun w =>
    let e := length (w_nodes w) in
    (Ok e,
     set_nodes w (alter (add_child e) parent (w_nodes w)
                  ++ [Node tg None [] None []])).

(** [e.text = v]: lxml takes [None] or a [str] it can store. *)
Definition set_text (e : elem) (v : pyval) : M unit :=
  fun w =>
    match v with
    | PNone => (Ok tt, set_nodes w (alter (with_text None) e (w_nodes w)))
    | PStr s =>
        if xml_compatible s
        then (Ok tt, set_nodes w (alter (with_text (Some s)) e (w_nodes w)))
        else (Raise ValueError, w)
    | _ => (Raise TypeError, w)
    end.

(** [etree.SubElement(parent, tag).text = v], with [v] already
    evaluated. *)
Definition SubElement_text (parent : elem) (tg : string) (v : pyval) : M unit :=
  e <- SubElement parent tg ;; set_text e v.

(** An [Optional[str]] attribute as a Python value. *)
Definition py_opt (o : option string) : pyval :=
  match o with
  | Some s => PStr s
  | None => PNone
  end.

(** ** The generator object ([OnixXmlGenerator.__init__]) *)

Record OnixXmlGenerator := Generator {
  sender_name : string;
  sender_email : string
}.

(** [OnixXmlGenerator(sender_name=..., sender_email=...)] with the
    defaults of [__init__]. *)
Definition default_sender_name : string := "ONIX Book System".
Definition default_sender_email : string := "".

Definition ONIX_NS : string := "http://ns.editeur.org/onix/3.1".

(** ** Trees and stores *)

Fixpoint size (t : xml) : nat :=
  let 'Elem _ _ _ _ ks := t in
  S ((fix go (ks : list xml) : nat :=
        match ks with
        | [] => O
        | k :: ks' => (size k + go ks')%nat
        end) ks).

Fixpoint size_list (ks : list xml) : nat :=
  match ks with
  | [] => O
  | k :: ks' => (size k + size_list ks')%nat
  end.

(** Handles of the children of an element whose first child is
    allocated at [b]. *)
Fixpoint child_ids (b : nat) (ks : list xml) : list elem :=
  match ks with
  | [] => []
  | k :: ks' => b :: child_ids (b + size k)%nat ks'
  end.

(** The nodes of [t] in the order the encoder allocates them: an
    element, then its children from first to last, each with everything
    below it. *)
Fixpoint layout (b : nat) (t : xml) : list node :=
  let 'Elem tg ns at_ tx ks := t in
  Node tg ns at_ tx (child_ids (S b) ks)
  :: (fix go (b : nat) (ks : list xml) : list node :=
        match ks with
        | [] => []
        | k :: ks' => layout b k ++ go (b + size k)%nat ks'
        end) (S b) ks.

Fixpoint layout_list (b : nat) (ks : list xml) : list node :=
  match ks with
  | [] => []
  | k :: ks' => layout b k ++ layout_list (b + size k)%nat ks'
  end.

(** Reading a laid-out tree back from the store. *)
Definition reads_back (t : xml) : Prop :=
  forall fuel store rest,
    (size t <= fuel)%nat ->
    to_tree fuel (store ++ layout (length store) t ++ rest) (length store)
    = Some t.

(** [graft store p t]: the store after the encoder has built [t] as a
    new last child of [p]. *)
Definition graft (store : list node) (p : elem) (t : xml) : list node :=
  alter (add_child (length store)) p store ++ layout (length store) t.

Definition graft_list (store : list node) (p : elem) (ts : list xml)
  : list node :=
  fold_left (fun s t => graft s p t) ts store.

Definition rbind {A B} (r : result A) (k : A -> result B) : result B :=
  match r with
  | Ok a => k a
  | Raise e => Raise e
  end.

(** Children produced by one step followed by those of the next. *)
Definition rapp (r1 r2 : result (list xml)) : result (list xml) :=
  rbind r1 (fun a => rbind r2 (fun b => Ok (a ++ b))).

Infix "+++" := rapp (at level 60, right associativity).

(** What [e.text = v] stores. *)
Definition text_of (v : pyval) : result (option string) :=
  match v with
  | PNone => Ok None
  | PStr s => if xml_compatible s then Ok (Some s) else Raise ValueError
  | _ => Raise TypeError
  end.

(** A childless element with text [v]. *)
Definition leaf (tg : string) (v : pyval) : result (list xml) :=
  rbind (text_of v) (fun tx => Ok [Elem tg None [] tx []]).

(** An element without text around the children [rk]. *)
Definition element (tg : string) (rk : result (list xml)) : result (list xml) :=
  rbind rk (fun ks => Ok [Elem tg None [] None ks]).

(** The children a loop adds. *)
Fixpoint rconcat {A} (f : A -> result (list xml)) (l : list A)
  : result (list xml) :=
  match l with
  | [] => Ok []
  | x :: l' => f x +++ rconcat f l'
  end.

Definition outcome {A} (r : result A) : result unit :=
  rbind r (fun _ => Ok tt).

(** What a builder working below [p] leaves alone. *)
Definition frame (p : elem) (w w' : world) : Prop :=
  w_clock w' = w_clock w
  /\ w_db w' = w_db w
  /\ (length (w_nodes w) <= length (w_nodes w'))%nat
  /\ take p (w_nodes w') = take p (w_nodes w).

(** [m], run at clock reading [c] with [p] in the store, raises what [r]
    raises or else appends the trees [r] to the children of [p]. *)
Definition refines {A} (c : datetime) (m : M A) (p : elem)
    (r : result (list xml)) : Prop :=
  forall w,
    w_clock w = c ->
    (p < length (w_nodes w))%nat ->
    outcome (fst (m w)) = outcome r
    /\ frame p w (snd (m w))
    /\ (forall ts, r = Ok ts ->
          w_nodes (snd (m w)) = graft_list (w_nodes w) p ts).



(** The tree rooted at the first element allocated between [w] and
    [w']: for a call of [generate_product_xml], the document it built. *)
Definition built_document (w w' : world) : option xml :=
  to_tree (length (w_nodes w')) (w_nodes w') (length (w_nodes w)).

(** ** Looking into a document *)

(** The children of [t] named [tg]. *)
Definition children_named (tg : string) (t : xml) : list xml :=
  List.filter (fun k => String.eqb (xtag k) tg) (xchildren t).

(** The elements reached from [t] by descending through children with
    the given names, in document order. *)
Fixpoint select (path : list string) (t : xml) : list xml :=
  match path with
  | [] => [t]
  | tg :: path' => flat_map (select path') (children_named tg t)
  end.

(** The names of all elements of [t], in document order. *)
Fixpoint tags (t : xml) : list string :=
  let 'Elem tg _ _ _ ks := t in
  tg :: (fix go (ks : list xml) : list string :=
           match ks with
           | [] => []
           | k :: ks' => tags k ++ go ks'
           end) ks.

Fixpoint tags_list (ks : list xml) : list string :=
  match ks with
  | [] => []
  | k :: ks' => tags k ++ tags_list ks'
  end.

(** The text of the elements at [path]. *)
Definition texts (path : list string) (t : xml) : list (option string) :=
  map xtext (select path t).

(** ** Ingestion-side validation ([app/schemas/schemas.py]) *)

Definition is_digit (c : ascii) : bool :=
  let n := Z.of_nat (nat_of_ascii c) in (48 <=? n) && (n <=? 57).

(** [ProductBase.isbn_13]: [min_length=13], [max_length=13] and the
    validator [re.match(r"^[0-9]{13}$", v)]. *)
Definition validate_isbn (v : string) : result string :=
  if (Z.of_nat (String.length v) =? 13)
     && forallb is_digit (list_ascii_of_string v)
  then Ok v
  else Raise ValueError.

(** ** The contributor order the specification asks for

    "In ascending [sequence_number] order, ties broken by input order":
    the authors sorted by the sequence number of their association with
    the product.  The encoder has no such function; this one states the
    order it is compared with. *)
Definition sequence_number_of (associations : list ProductAuthor.t)
    (a : Author.t) : Z :=
  match List.find (fun pa => ProductAuthor.author_id pa =? Author.id a)
                  associations with
  | Some pa => ProductAuthor.sequence_number pa
  | None => 1
  end.

Fixpoint insert_by_key (key : Author.t -> Z) (a : Author.t)
    (sorted : list Author.t) : list Author.t :=
  match sorted with
  | [] => [a]
  | b :: rest =>
      if key a <=? key b then a :: b :: rest
      else b :: insert_by_key key a rest
  end.

Definition spec_contributor_order (associations : list ProductAuthor.t)
    (authors : list Author.t) : list Author.t :=
  fold_right (insert_by_key (sequence_number_of associations)) [] authors.

(** [product] with other author associations. *)
Definition with_associations (product : Product.t)
    (associations : list ProductAuthor.t) : Product.t :=
  {| Product.id := Product.id product;
     Product.isbn_13 := Product.isbn_13 product;
     Product.title := Product.title product;
     Product.publisher_id := Product.publisher_id product;
     Product.collection_id := Product.collection_id product;
     Product.product_form := Product.product_form product;
     Product.language := Product.language product;
     Product.onix_json := Product.onix_json product;
     Product.authors := associations |}.

(** ** Stand-ins for the library functions, and inputs, for examples *)

(** A plain rendering of a tree, standing in for lxml's serializer. *)
Fixpoint render (t : xml) : string :=
  let 'Elem tg _ _ tx ks := t in
  "<" +:+ tg +:+ ">"
  +:+ match tx with Some s => s | None => "" end
  +:+ (fix go (ks : list xml) : string :=
         match ks with
         | [] => ""
         | k :: ks' => render k +:+ go ks'
         end) ks
  +:+ "</" +:+ tg +:+ ">".

Definition render_document (doc : xml) : result string := Ok (render doc).

(** Quoting without escapes, standing in for [repr] of a [str]. *)
Definition quote (s : string) : string := "'" +:+ s +:+ "'".

Definition example_generator : OnixXmlGenerator :=
  Generator default_sender_name default_sender_email.

Definition example_clock : datetime := Datetime 2024 1 15 10 30 0 0.

Definition author_A : Author.t := Author.Make 1 "A" None.
Definition author_B : Author.t := Author.Make 2 "B" (Some "Born in Kyiv.").

Definition example_publisher : Publisher.t :=
  Publisher.Make 7 "Osnovy" (Some "4820000000001").

Definition example_onix_json : pyval :=
  PDict [("text_content",
          PList [PDict [("text_type", PStr "03");
                        ("content_audience", PStr "00");
                        ("text", PStr "A collection of poems.")]]);
         ("supporting_resources", PList []);
         ("prices",
          PList [PDict [("price_type", PStr "01");
                        ("price_amount", PFloat 250);
                        ("currency_code", PStr "UAH");
                        ("tax_rate_code", PStr "S");
                        ("tax_rate_percent", PFloat 20)];
                 PDict [("price_type", PStr "02");
                        ("price_amount", PInt 199);
                        ("currency_code", PStr "UAH");
                        ("tax_rate_code", PNone);
                        ("tax_rate_percent", PNone)]])].

(** The aggregate with authors [(B, seq=2), (A, seq=1)]. *)
Definition example_product : Product.t :=
  {| Product.id := 42;
     Product.isbn_13 := Some "9780000000002";
     Product.title := "Kobzar";
     Product.publisher_id := None;
     Product.collection_id := None;
     Product.product_form := None;
     Product.language := None;
     Product.onix_json := PNone;
     Product.authors := [ProductAuthor.Make 42 2 "A01" 2;
                         ProductAuthor.Make 42 1 "A01" 1] |}.

Definition example_authors : list Author.t := [author_B; author_A].

(** The same product with the ISBN ["12345"]. *)
Definition short_isbn_product : Product.t :=
  {| Product.id := 42;
     Product.isbn_13 := Some "12345";
     Product.title := "Kobzar";
     Product.publisher_id := None;
     Product.collection_id := None;
     Product.product_form := None;
     Product.language := None;
     Product.onix_json := PNone;
     Product.authors := [] |}.

(** A product with supplementary metadata whose sub-lists for texts and
    resources are empty. *)
Definition priced_product (onix_json : pyval) : Product.t :=
  {| Product.id := 43;
     Product.isbn_13 := Some "9780000000019";
     Product.title := "Eneida";
     Product.publisher_id := Some 7;
     Product.collection_id := None;
     Product.product_form := Some "BB";
     Product.language := Some "ukr";
     Product.onix_json := onix_json;
     Product.authors := [] |}.

Definition example_database : database :=
  {| products := [example_product];
     authors := [author_B; author_A];
     publishers := [example_publisher];
     collections := [] |}.

Definition example_world : world :=
  {| w_clock := example_clock; w_db := example_database; w_nodes := [] |}.

(** A world in which another document has already been built. *)
Definition busy_world : world :=
  {| w_clock := example_clock;
     w_db := example_database;
     w_nodes := [Node "Other" None [] None [1%nat];
                 Node "Child" None [] (Some "x") []] |}.

(** Nothing that existed in [w] has changed in [w']: the database rows
    and the clock are the same, and so is every element that was in the
    store; [w'] may only hold further elements. *)
Definition untouched (w w' : world) : Prop :=
  w_db w' = w_db w
  /\ w_clock w' = w_clock w
  /\ take (length (w_nodes w)) (w_nodes w') = w_nodes w.

(** The example product without an ISBN. *)
Definition no_isbn_product : Product.t :=
  {| Product.id := 42;
     Product.isbn_13 := None;
     Product.title := "Kobzar";
     Product.publisher_id := None;
     Product.collection_id := None;
     Product.product_form := None;
     Product.language := None;
     Product.onix_json := PNone;
     Product.authors := [] |}.

(** Supplementary metadata with prices only. *)
Definition prices_only_json : pyval :=
  PDict [("prices",
          PList [PDict [("price_amount", PFloat 250);
                        ("tax_rate_percent", PFloat 20)];
                 PDict [("price_amount", PInt 199);
                        ("tax_rate_percent", PNone)]])].

(** ** Aggregates the encoder accepts *)

(** Printable ASCII only. *)
Definition printableb (s : string) : bool :=
  forallb (fun c => let n := Z.of_nat (nat_of_ascii c) in
                    (32 <=? n) && (n <? 127))
          (list_ascii_of_string s).

(** An optional text lxml can store. *)
Definition text_ok (o : option string) : bool :=
  match o with
  | Some s => xml_compatible s
  | None => true
  end.

Definition author_ok (a : Author.t) : bool :=
  xml_compatible (Author.full_name a) && text_ok (Author.biography a).

Definition publisher_ok (p : option Publisher.t) : bool :=
  match p with
  | Some p => xml_compatible (Publisher.name p) && text_ok (Publisher.gln p)
  | None => true
  end.

(** Supplementary metadata as ingestion stores it when only prices were
    given: the sub-lists left out are [None]. *)
Definition dumped_prices_json : pyval :=
  PDict [("text_content", PNone);
         ("supporting_resources", PNone);
         ("prices", PList [PDict [("price_type", PStr "01");
                                  ("price_amount", PFloat 250);
                                  ("currency_code", PStr "UAH");
                                  ("tax_rate_code", PStr "S");
                                  ("tax_rate_percent", PFloat 20)]]);
         ("subjects", PNone);
         ("extra", PNone)].

(** ** The encoder ([app/services/onix_service.py]) *)

Section Encoder.

(** Two functions of the libraries the code calls are left open:
    [repr] of a [str], which [str()] of a list or dict applies to the
    strings inside, and lxml's serializer [etree.tostring(root,
    encoding="unicode", pretty_print=True, xml_declaration=True)],
    which may itself raise. *)
Variable repr_str : string -> string.
Variable etree_tostring : xml -> result string.

(** [repr(v)] and [str(v)] *)
Fixpoint py_repr (v : pyval) : string :=
  match v with
  | PNone => "None"
  | PBool b => if b then "True" else "False"
  | PInt n => str_int n
  | PFloat f => FloatRepr.repr f
  | PStr s => repr_str s
  | PList l => "[" +:+ String.concat ", " (map py_repr l) +:+ "]"
  | PDict d =>
      "{" +:+ String.concat ", "
                (map (fun kv => let '(k, x) := kv in
                                repr_str k +:+ ": " +:+ py_repr x) d)
      +:+ "}"
  end.

Definition py_str (v : pyval) : string :=
  match v with
  | PStr s => s
  | _ => py_repr v
  end.

(** [etree.tostring(root, ...)]: the tree below [root] is handed to the
    serializer.  A handle obtained from [Element] denotes a tree and the
    fuel suffices for it ([run_tostring] below), so the last case is
    never reached. *)
Definition tostring (root : elem) : M string :=
  fun w =>
    match to_tree (length (w_nodes w)) (w_nodes w) root with
    | Some doc => (etree_tostring doc, w)
    | None => (Raise ValueError, w)
    end.

Definition _create_header (self : OnixXmlGenerator) (parent : elem) : M elem :=
  header <- SubElement parent "Header" ;;
  (sender <- SubElement header "Sender" ;;
   SubElement_text sender "SenderName" (PStr (sender_name self)) ;;
   (if str_truthy (sender_email self)
    then SubElement_text sender "EmailAddress" (PStr (sender_email self))
    else ret tt)) ;;
  (t <- now ;;
   SubElement_text header "SentDateTime" (PStr (strftime t))) ;;
  SubElement_text header "MessageNote" (PStr "ONIX 3.1 Export") ;;
  ret header.

Definition _create_product_identifiers (product_elem : elem)
    (isbn : option string) : M unit :=
  prod_id <- SubElement product_elem "ProductIdentifier" ;;
  SubElement_text prod_id "ProductIDType" (PStr "15") ;;
  SubElement_text prod_id "IDValue" (py_opt isbn).

Definition _create_descriptive_detail (product_elem : elem)
    (product : Product.t) (authors : list Author.t)
    (collection_title : option string) : M elem :=
  desc <- SubElement product_elem "DescriptiveDetail" ;;
  SubElement_text desc "ProductComposition" (PStr "00") ;;
  SubElement_text desc "ProductForm"
    (PStr (or_default (Product.product_form product) "BC")) ;;
  (title_detail <- SubElement desc "TitleDetail" ;;
   SubElement_text title_detail "TitleType" (PStr "01") ;;
   (title_elem <- SubElement title_detail "TitleElement" ;;
    SubElement_text title_elem "TitleElementLevel" (PStr "01") ;;
    SubElement_text title_elem "TitleText" (PStr (Product.title product)))) ;;
  for_each (enumerate 1 authors) (fun ia =>
    let '(i, author) := ia in
    contrib <- SubElement desc "Contributor" ;;
    SubElement_text contrib "SequenceNumber" (PStr (str_int i)) ;;
    SubElement_text contrib "ContributorRole" (PStr "A01") ;;
    SubElement_text contrib "PersonName" (PStr (Author.full_name author)) ;;
    (if opt_truthy (Author.biography author)
     then bio <- SubElement contrib "BiographicalNote" ;;
          set_text bio (py_opt (Author.biography author))
     else ret tt)) ;;
  (if opt_truthy collection_title
   then coll <- SubElement desc "Collection" ;;
        SubElement_text coll "CollectionType" (PStr "10") ;;
        (coll_title <- SubElement coll "TitleDetail" ;;
         SubElement_text coll_title "TitleType" (PStr "01") ;;
         (coll_elem <- SubElement coll_title "TitleElement" ;;
          SubElement_text coll_elem "TitleElementLevel" (PStr "02") ;;
          SubElement_text coll_elem "TitleText" (py_opt collection_title)))
   else ret tt) ;;
  (lang <- SubElement desc "Language" ;;
   SubElement_text lang "LanguageRole" (PStr "01") ;;
   SubElement_text lang "LanguageCode"
     (PStr (or_default (Product.language product) "ukr"))) ;;
  ret desc.

Definition _create_collateral_detail (product_elem : elem)
    (onix_json : pyval) : M (option elem) :=
  if negb (py_truthy onix_json) then ret None
  else
    collateral <- SubElement product_elem "CollateralDetail" ;;
    text_contents <- lift (py_get onix_json "text_content" (PList [])) ;;
    items <- lift (py_iter text_contents) ;;
    for_each items (fun tc =>
      text_elem <- SubElement collateral "TextContent" ;;
      (v <- lift (py_get tc "text_type" (PStr "03")) ;;
       SubElement_text text_elem "TextType" v) ;;
      (v <- lift (py_get tc "content_audience" (PStr "00")) ;;
       SubElement_text text_elem "ContentAudience" v) ;;
      (text_node <- SubElement text_elem "Text" ;;
       v <- lift (py_get tc "text" (PStr "")) ;;
       set_text text_node v)) ;;
    resources <- lift (py_get onix_json "supporting_resources" (PList [])) ;;
    items <- lift (py_iter resources) ;;
    for_each items (fun res =>
      res_elem <- SubElement collateral "SupportingResource" ;;
      (v <- lift (py_get res "resource_content_type" (PStr "01")) ;;
       SubElement_text res_elem "ResourceContentType" v) ;;
      SubElement_text res_elem "ContentAudience" (PStr "00") ;;
      (v <- lift (py_get res "resource_mode" (PStr "03")) ;;
       SubElement_text res_elem "ResourceMode" v) ;;
      (res_ver <- SubElement res_elem "ResourceVersion" ;;
       SubElement_text res_ver "ResourceForm" (PStr "02") ;;
       (v <- lift (py_get res "resource_link" (PStr "")) ;;
        SubElement_text res_ver "ResourceLink" v))) ;;
    ret (Some collateral).

Definition _create_publishing_detail (product_elem : elem)
    (publisher : option Publisher.t) : M elem :=
  pub_detail <- SubElement product_elem "PublishingDetail" ;;
  match publisher with
  | Some publisher =>
      pub_elem <- SubElement pub_detail "Publisher" ;;
      SubElement_text pub_elem "PublishingRole" (PStr "01") ;;
      SubElement_text pub_elem "PublisherName" (PStr (Publisher.name publisher)) ;;
      (if opt_truthy (Publisher.gln publisher)
       then pub_id <- SubElement pub_elem "PublisherIdentifier" ;;
            SubElement_text pub_id "PublisherIDType" (PStr "06") ;;
            SubElement_text pub_id "IDValue" (py_opt (Publisher.gln publisher))
       else ret tt)
  | None => ret tt
  end ;;
  SubElement_text pub_detail "PublishingStatus" (PStr "04") ;;
  ret pub_detail.

Definition _create_product_supply (product_elem : elem)
    (onix_json : pyval) : M (option elem) :=
  prices <- lift (if py_truthy onix_json
                  then py_get onix_json "prices" (PList [])
                  else Ok (PList [])) ;;
  if negb (py_truthy prices) then ret None
  else
    supply <- SubElement product_elem "ProductSupply" ;;
    (supply_detail <- SubElement supply "SupplyDetail" ;;
     SubElement_text supply_detail "ProductAvailability" (PStr "20") ;;
     items <- lift (py_iter prices) ;;
     for_each items (fun price_data =>
       price <- SubElement supply_detail "Price" ;;
       (v <- lift (py_get price_data "price_type" (PStr "01")) ;;
        SubElement_text price "PriceType" v) ;;
       (v <- lift (py_get price_data "price_amount" (PInt 0)) ;;
        SubElement_text price "PriceAmount" (PStr (py_str v))) ;;
       (v <- lift (py_get price_data "currency_code" (PStr "UAH")) ;;
        SubElement_text price "CurrencyCode" v) ;;
       c <- lift (py_get price_data "tax_rate_percent" PNone) ;;
       if py_truthy c
       then tax <- SubElement price "Tax" ;;
            SubElement_text tax "TaxType" (PStr "01") ;;
            (v <- lift (py_get price_data "tax_rate_code" (PStr "S")) ;;
             SubElement_text tax "TaxRateCode" v) ;;
            (v <- lift (py_get price_data "tax_rate_percent" (PInt 20)) ;;
             SubElement_text tax "TaxRatePercent" (PStr (py_str v)))
       else ret tt)) ;;
    ret (Some supply).

Definition generate_product_xml (self : OnixXmlGenerator)
    (product : Product.t) (authors : list Author.t)
    (publisher : option Publisher.t) (collection_title : option string)
    : M string :=
  root <- Element "ONIXMessage" (Some ONIX_NS) [("release", "3.1")] ;;
  _create_header self root ;;
  (product_elem <- SubElement root "Product" ;;
   SubElement_text product_elem "RecordReference"
     (PStr (str_uuid (Product.id product))) ;;
   SubElement_text product_elem "NotificationType" (PStr "03") ;;
   _create_product_identifiers product_elem (Product.isbn_13 product) ;;
   _create_descriptive_detail product_elem product authors collection_title ;;
   (if py_truthy (Product.onix_json product)
    then _create_collateral_detail product_elem (Product.onix_json product) ;;
         ret tt
    else ret tt) ;;
   _create_publishing_detail product_elem publisher ;;
   (if py_truthy (Product.onix_json product)
    then _create_product_supply product_elem (Product.onix_json product) ;;
         ret tt
    else ret tt)) ;;
  tostring root.

(** *** The export endpoint ([app/api/products.py])

    A [select(...).where(...)] without [ORDER BY] is read as a filter
    over the table, rows coming back in table order. *)

Record Response := MakeResponse { content : string; media_type : string }.

(** [result.scalar_one_or_none()] *)
Definition scalar_one_or_none {A} (rows : list A) : M (option A) :=
  match rows with
  | [] => ret None
  | [x] => ret (Some x)
  | _ => raise MultipleResultsFound
  end.

Definition db_execute {A} (table : database -> list A) (where_ : A -> bool)
  : M (list A) :=
  fun w => (Ok (filter (fun x => where_ x = true) (table (w_db w))), w).

Definition isbn_eqb (column : option string) (isbn : string) : bool :=
  match column with
  | Some s => String.eqb s isbn
  | None => false
  end.

Definition export_product_onix (isbn : string) : M Response :=
  result <- db_execute products (fun p => isbn_eqb (Product.isbn_13 p) isbn) ;;
  product <- scalar_one_or_none result ;;
  match product with
  | None => raise (HTTPException 404)
  | Some product =>
      authors <-
        (match Product.authors product with
         | [] => ret []
         | _ =>
             let author_ids :=
               map ProductAuthor.author_id (Product.authors product) in
             db_execute authors
               (fun a => existsb (Z.eqb (Author.id a)) author_ids)
         end) ;;
      publisher <-
        (match Product.publisher_id product with
         | Some publisher_id =>
             result <- db_execute publishers
                         (fun pb => Publisher.id pb =? publisher_id) ;;
             scalar_one_or_none result
         | None => ret None
         end) ;;
      collection_title <-
        (match Product.collection_id product with
         | Some collection_id =>
             result <- db_execute collections
                         (fun c => Collection.id c =? collection_id) ;;
             collection <- scalar_one_or_none result ;;
             ret (match collection with
                  | Some collection => Some (Collection.title collection)
                  | None => None
                  end)
         | None => ret None
         end) ;;
      let generator := Generator "ONIX Book System" default_sender_email in
      xml_content <-
        generate_product_xml generator product authors publisher
          collection_title ;;
      ret (MakeResponse xml_content "application/xml")
  end.


(** *** The builders read as functions to trees

    Each function below gives, for one builder, the elements it appends
    to its parent when it returns, or the exception it raises.  That the
    builders do just this is proved in [*_refines] below. *)

Definition header_tree (self : OnixXmlGenerator) (c : datetime)
  : result (list xml) :=
  element "Header"
    (element "Sender"
       (leaf "SenderName" (PStr (sender_name self))
        +++ (if str_truthy (sender_email self)
             then leaf "EmailAddress" (PStr (sender_email self))
             else Ok []))
     +++ leaf "SentDateTime" (PStr (strftime c))
     +++ leaf "MessageNote" (PStr "ONIX 3.1 Export")).

Definition product_identifiers_tree (isbn : option string)
  : result (list xml) :=
  element "ProductIdentifier"
    (leaf "ProductIDType" (PStr "15") +++ leaf "IDValue" (py_opt isbn)).

Definition contributor_tree (ia : Z * Author.t) : result (list xml) :=
  let '(i, author) := ia in
  element "Contributor"
    (leaf "SequenceNumber" (PStr (str_int i))
     +++ leaf "ContributorRole" (PStr "A01")
     +++ leaf "PersonName" (PStr (Author.full_name author))
     +++ (if opt_truthy (Author.biography author)
          then leaf "BiographicalNote" (py_opt (Author.biography author))
          else Ok [])).

Definition collection_tree (collection_title : option string)
  : result (list xml) :=
  element "Collection"
    (leaf "CollectionType" (PStr "10")
     +++ element "TitleDetail"
           (leaf "TitleType" (PStr "01")
            +++ element "TitleElement"
                  (leaf "TitleElementLevel" (PStr "02")
                   +++ leaf "TitleText" (py_opt collection_title)))).

Definition descriptive_detail_tree (product : Product.t)
    (authors : list Author.t) (collection_title : option string)
  : result (list xml) :=
  element "DescriptiveDetail"
    (leaf "ProductComposition" (PStr "00")
     +++ leaf "ProductForm"
           (PStr (or_default (Product.product_form product) "BC"))
     +++ element "TitleDetail"
           (leaf "TitleType" (PStr "01")
            +++ element "TitleElement"
                  (leaf "TitleElementLevel" (PStr "01")
                   +++ leaf "TitleText" (PStr (Product.title product))))
     +++ rconcat contributor_tree (enumerate 1 authors)
     +++ (if opt_truthy collection_title
          then collection_tree collection_title
          else Ok [])
     +++ element "Language"
           (leaf "LanguageRole" (PStr "01")
            +++ leaf "LanguageCode"
                  (PStr (or_default (Product.language product) "ukr")))).

Definition text_content_tree (tc : pyval) : result (list xml) :=
  element "TextContent"
    (rbind (py_get tc "text_type" (PStr "03")) (leaf "TextType")
     +++ rbind (py_get tc "content_audience" (PStr "00"))
           (leaf "ContentAudience")
     +++ rbind (py_get tc "text" (PStr "")) (leaf "Text")).

Definition supporting_resource_tree (res : pyval) : result (list xml) :=
  element "SupportingResource"
    (rbind (py_get res "resource_content_type" (PStr "01"))
       (leaf "ResourceContentType")
     +++ leaf "ContentAudience" (PStr "00")
     +++ rbind (py_get res "resource_mode" (PStr "03")) (leaf "ResourceMode")
     +++ element "ResourceVersion"
           (leaf "ResourceForm" (PStr "02")
            +++ rbind (py_get res "resource_link" (PStr ""))
                  (leaf "ResourceLink"))).

Definition collateral_detail_tree (onix_json : pyval) : result (list xml) :=
  if negb (py_truthy onix_json) then Ok []
  else
    element "CollateralDetail"
      (rbind (py_get onix_json "text_content" (PList [])) (fun text_contents =>
       rbind (py_iter text_contents) (fun items =>
         rconcat text_content_tree items
         +++ rbind (py_get onix_json "supporting_resources" (PList []))
               (fun resources =>
                rbind (py_iter resources) (fun items =>
                  rconcat supporting_resource_tree items))))).

Definition publisher_tree (publisher : Publisher.t) : result (list xml) :=
  element "Publisher"
    (leaf "PublishingRole" (PStr "01")
     +++ leaf "PublisherName" (PStr (Publisher.name publisher))
     +++ (if opt_truthy (Publisher.gln publisher)
          then element "PublisherIdentifier"
                 (leaf "PublisherIDType" (PStr "06")
                  +++ leaf "IDValue" (py_opt (Publisher.gln publisher)))
          else Ok [])).

Definition publishing_detail_tree (publisher : option Publisher.t)
  : result (list xml) :=
  element "PublishingDetail"
    (match publisher with
     | Some publisher => publisher_tree publisher
     | None => Ok []
     end
     +++ leaf "PublishingStatus" (PStr "04")).

Definition tax_tree (price_data : pyval) : result (list xml) :=
  element "Tax"
    (leaf "TaxType" (PStr "01")
     +++ rbind (py_get price_data "tax_rate_code" (PStr "S"))
           (leaf "TaxRateCode")
     +++ rbind (py_get price_data "tax_rate_percent" (PInt 20))
           (fun v => leaf "TaxRatePercent" (PStr (py_str v)))).

Definition price_tree (price_data : pyval) : result (list xml) :=
  element "Price"
    (rbind (py_get price_data "price_type" (PStr "01")) (leaf "PriceType")
     +++ rbind (py_get price_data "price_amount" (PInt 0))
           (fun v => leaf "PriceAmount" (PStr (py_str v)))
     +++ rbind (py_get price_data "currency_code" (PStr "UAH"))
           (leaf "CurrencyCode")
     +++ rbind (py_get price_data "tax_rate_percent" PNone) (fun c =>
           if py_truthy c then tax_tree price_data else Ok [])).

(** [onix_json.get("prices", []) if onix_json else []] *)
Definition prices_of (onix_json : pyval) : result pyval :=
  if py_truthy onix_json
  then py_get onix_json "prices" (PList [])
  else Ok (PList []).

Definition product_supply_tree (onix_json : pyval) : result (list xml) :=
  rbind (prices_of onix_json) (fun prices =>
    if negb (py_truthy prices) then Ok []
    else
      element "ProductSupply"
        (element "SupplyDetail"
           (leaf "ProductAvailability" (PStr "20")
            +++ rbind (py_iter prices) (rconcat price_tree)))).

Definition product_tree (product : Product.t) (authors : list Author.t)
    (publisher : option Publisher.t) (collection_title : option string)
  : result (list xml) :=
  element "Product"
    (leaf "RecordReference" (PStr (str_uuid (Product.id product)))
     +++ leaf "NotificationType" (PStr "03")
     +++ product_identifiers_tree (Product.isbn_13 product)
     +++ descriptive_detail_tree product authors collection_title
     +++ (if py_truthy (Product.onix_json product)
          then collateral_detail_tree (Product.onix_json product)
          else Ok [])
     +++ publishing_detail_tree publisher
     +++ (if py_truthy (Product.onix_json product)
          then product_supply_tree (Product.onix_json product)
          else Ok [])).

(** The document [generate_product_xml] hands to the serializer when
    the clock reads [c]. *)
Definition onix_message (c : datetime) (self : OnixXmlGenerator)
    (product : Product.t) (authors : list Author.t)
    (publisher : option Publisher.t) (collection_title : option string)
  : result xml :=
  rbind (header_tree self c
         +++ product_tree product authors publisher collection_title)
    (fun ks =>
       Ok (Elem "ONIXMessage" (Some ONIX_NS) [("release", "3.1")] None ks)).

(** The elements the loops and the fixed parts produce when nothing is
    raised. *)
Definition text_leaf (tg : string) (tx : option string) : xml :=
  Elem tg None [] tx [].

Definition contributor_elem (ia : Z * Author.t) : xml :=
  let '(i, author) := ia in
  Elem "Contributor" None [] None
    ([text_leaf "SequenceNumber" (Some (str_int i));
      text_leaf "ContributorRole" (Some "A01");
      text_leaf "PersonName" (Some (Author.full_name author))]
     ++ (if opt_truthy (Author.biography author)
         then [text_leaf "BiographicalNote" (Author.biography author)]
         else [])).

Definition collection_elem (collection_title : option string) : xml :=
  Elem "Collection" None [] None
    [text_leaf "CollectionType" (Some "10");
     Elem "TitleDetail" None [] None
       [text_leaf "TitleType" (Some "01");
        Elem "TitleElement" None [] None
          [text_leaf "TitleElementLevel" (Some "02");
           text_leaf "TitleText" collection_title]]].

Definition descriptive_detail_elem (product : Product.t)
    (authors : list Author.t) (collection_title : option string) : xml :=
  Elem "DescriptiveDetail" None [] None
    ([text_leaf "ProductComposition" (Some "00");
      text_leaf "ProductForm"
        (Some (or_default (Product.product_form product) "BC"));
      Elem "TitleDetail" None [] None
        [text_leaf "TitleType" (Some "01");
         Elem "TitleElement" None [] None
           [text_leaf "TitleElementLevel" (Some "01");
            text_leaf "TitleText" (Some (Product.title product))]]]
     ++ map contributor_elem (enumerate 1 authors)
     ++ (if opt_truthy collection_title
         then [collection_elem collection_title]
         else [])
     ++ [Elem "Language" None [] None
           [text_leaf "LanguageRole" (Some "01");
            text_leaf "LanguageCode"
              (Some (or_default (Product.language product) "ukr"))]]).

Definition product_identifier_elem (isbn : option string) : xml :=
  Elem "ProductIdentifier" None [] None
    [text_leaf "ProductIDType" (Some "15"); text_leaf "IDValue" isbn].

Definition publisher_elem (publisher : Publisher.t) : xml :=
  Elem "Publisher" None [] None
    ([text_leaf "PublishingRole" (Some "01");
      text_leaf "PublisherName" (Some (Publisher.name publisher))]
     ++ (if opt_truthy (Publisher.gln publisher)
         then [Elem "PublisherIdentifier" None [] None
                 [text_leaf "PublisherIDType" (Some "06");
                  text_leaf "IDValue" (Publisher.gln publisher)]]
         else [])).

Definition publishing_detail_elem (publisher : option Publisher.t) : xml :=
  Elem "PublishingDetail" None [] None
    (match publisher with
     | Some publisher => [publisher_elem publisher]
     | None => []
     end
     ++ [text_leaf "PublishingStatus" (Some "04")]).

(** [v.get(key, default)] where it does not raise, the items of a loop
    where the value can be iterated, and the text lxml stores. *)
Definition get_or (v : pyval) (key : string) (default : pyval) : pyval :=
  match py_get v key default with
  | Ok x => x
  | Raise _ => default
  end.

Definition items_of (v : pyval) : list pyval :=
  match py_iter v with
  | Ok l => l
  | Raise _ => []
  end.

Definition text_value (v : pyval) : option string :=
  match v with
  | PStr s => Some s
  | _ => None
  end.

Definition text_content_elem (tc : pyval) : xml :=
  Elem "TextContent" None [] None
    [text_leaf "TextType" (text_value (get_or tc "text_type" (PStr "03")));
     text_leaf "ContentAudience"
       (text_value (get_or tc "content_audience" (PStr "00")));
     text_leaf "Text" (text_value (get_or tc "text" (PStr "")))].

Definition supporting_resource_elem (res : pyval) : xml :=
  Elem "SupportingResource" None [] None
    [text_leaf "ResourceContentType"
       (text_value (get_or res "resource_content_type" (PStr "01")));
     text_leaf "ContentAudience" (Some "00");
     text_leaf "ResourceMode"
       (text_value (get_or res "resource_mode" (PStr "03")));
     Elem "ResourceVersion" None [] None
       [text_leaf "ResourceForm" (Some "02");
        text_leaf "ResourceLink"
          (text_value (get_or res "resource_link" (PStr "")))]].

Definition collateral_detail_elem (onix_json : pyval) : xml :=
  Elem "CollateralDetail" None [] None
    (map text_content_elem
       (items_of (get_or onix_json "text_content" (PList [])))
     ++ map supporting_resource_elem
          (items_of (get_or onix_json "supporting_resources" (PList [])))).

Definition tax_elem (price_data : pyval) : xml :=
  Elem "Tax" None [] None
    [text_leaf "TaxType" (Some "01");
     text_leaf "TaxRateCode"
       (text_value (get_or price_data "tax_rate_code" (PStr "S")));
     text_leaf "TaxRatePercent"
       (Some (py_str (get_or price_data "tax_rate_percent" (PInt 20))))].

Definition price_elem (price_data : pyval) : xml :=
  Elem "Price" None [] None
    ([text_leaf "PriceType"
        (text_value (get_or price_data "price_type" (PStr "01")));
      text_leaf "PriceAmount"
        (Some (py_str (get_or price_data "price_amount" (PInt 0))));
      text_leaf "CurrencyCode"
        (text_value (get_or price_data "currency_code" (PStr "UAH")))]
     ++ (if py_truthy (get_or price_data "tax_rate_percent" PNone)
         then [tax_elem price_data]
         else [])).

(** The value of [prices] in [_create_product_supply]. *)
Definition prices_value (onix_json : pyval) : pyval :=
  if py_truthy onix_json
  then get_or onix_json "prices" (PList [])
  else PList [].

Definition product_supply_elem (onix_json : pyval) : xml :=
  Elem "ProductSupply" None [] None
    [Elem "SupplyDetail" None [] None
       (text_leaf "ProductAvailability" (Some "20")
        :: map price_elem (items_of (prices_value onix_json)))].

Definition header_elem (self : OnixXmlGenerator) (c : datetime) : xml :=
  Elem "Header" None [] None
    [Elem "Sender" None [] None
       (text_leaf "SenderName" (Some (sender_name self))
        :: (if str_truthy (sender_email self)
            then [text_leaf "EmailAddress" (Some (sender_email self))]
            else []));
     text_leaf "SentDateTime" (Some (strftime c));
     text_leaf "MessageNote" (Some "ONIX 3.1 Export")].

Definition product_elem (product : Product.t) (authors : list Author.t)
    (publisher : option Publisher.t) (collection_title : option string)
  : xml :=
  Elem "Product" None [] None
    ([text_leaf "RecordReference" (Some (str_uuid (Product.id product)));
      text_leaf "NotificationType" (Some "03");
      product_identifier_elem (Product.isbn_13 product);
      descriptive_detail_elem product authors collection_title]
     ++ (if py_truthy (Product.onix_json product)
         then [collateral_detail_elem (Product.onix_json product)]
         else [])
     ++ [publishing_detail_elem publisher]
     ++ (if py_truthy (prices_value (Product.onix_json product))
         then [product_supply_elem (Product.onix_json product)]
         else [])).

(** The document of a call that raises nothing. *)
Definition onix_document (c : datetime) (self : OnixXmlGenerator)
    (product : Product.t) (authors : list Author.t)
    (publisher : option Publisher.t) (collection_title : option string)
  : xml :=
  Elem "ONIXMessage" (Some ONIX_NS) [("release", "3.1")] None
    [header_elem self c; product_elem product authors publisher collection_title].

(** An aggregate without supplementary metadata all of whose texts lxml
    can store. *)
Definition plain_aggregate (self : OnixXmlGenerator) (product : Product.t)
    (authors : list Author.t) (publisher : option Publisher.t)
    (collection_title : option string) : bool :=
  xml_compatible (sender_name self)
  && xml_compatible (sender_email self)
  && text_ok (Product.isbn_13 product)
  && xml_compatible (Product.title product)
  && text_ok (Product.product_form product)
  && text_ok (Product.language product)
  && forallb author_ok authors
  && publisher_ok publisher
  && text_ok collection_title
  && negb (py_truthy (Product.onix_json product)).

(** * Verification *)

Section Store.
Local Open Scope nat_scope.

Lemma xml_ind (P : xml -> Prop) :
  (forall tg ns at_ tx ks, Forall P ks -> P (Elem tg ns at_ tx ks)) ->
  forall t, P t.
Proof.
  intros step. fix IH 1. intros [tg ns at_ tx ks]. apply step.
  induction ks as [|k ks IHks]; constructor; [apply IH | exact IHks].
Qed.

Lemma size_Elem tg ns at_ tx ks :
  size (Elem tg ns at_ tx ks) = S (size_list ks).
Proof. reflexivity. Qed.

Lemma layout_Elem b tg ns at_ tx ks :
  layout b (Elem tg ns at_ tx ks)
  = Node tg ns at_ tx (child_ids (S b) ks) :: layout_list (S b) ks.
Proof. reflexivity. Qed.

Lemma size_list_app ks ks' :
  size_list (ks ++ ks') = (size_list ks + size_list ks')%nat.
Proof. induction ks as [|k ks IH]; simpl; lia. Qed.

Lemma child_ids_app b ks ks' :
  child_ids b (ks ++ ks')
  = child_ids b ks ++ child_ids (b + size_list ks) ks'.
Proof.
  revert b. induction ks as [|k ks IH]; intros b; simpl.
  - by rewrite Nat.add_0_r.
  - rewrite IH. do 3 f_equal. lia.
Qed.

Lemma layout_list_app b ks ks' :
  layout_list b (ks ++ ks')
  = layout_list b ks ++ layout_list (b + size_list ks) ks'.
Proof.
  revert b. induction ks as [|k ks IH]; intros b; simpl.
  - by rewrite Nat.add_0_r.
  - rewrite IH, <- app_assoc. do 3 f_equal. lia.
Qed.

Lemma length_layout b t : length (layout b t) = size t.
Proof.
  revert b. induction t as [tg ns at_ tx ks IH] using xml_ind. intros b.
  rewrite layout_Elem, size_Elem. simpl. f_equal. generalize (S b).
  induction IH as [|k ks Hk _ IHks]; intros c; simpl; [done|].
  by rewrite length_app, Hk, IHks.
Qed.

Lemma length_layout_list b ks : length (layout_list b ks) = size_list ks.
Proof.
  revert b. induction ks as [|k ks IH]; intros b; simpl; [done|].
  by rewrite length_app, length_layout, IH.
Qed.

Lemma to_tree_children fuel st todo :
  Forall reads_back todo ->
  size_list todo <= fuel ->
  forall pre rest,
    st = pre ++ layout_list (length pre) todo ++ rest ->
    mapM (to_tree fuel st) (child_ids (length pre) todo) = Some todo.
Proof.
  induction 1 as [|k todo Hk _ IH]; intros Hfuel pre rest Hst; [done|].
  simpl in *.
  assert (Hread : to_tree fuel st (length pre) = Some k).
  { subst st. rewrite <- app_assoc. apply Hk. lia. }
  rewrite Hread. simpl.
  specialize (IH ltac:(lia) (pre ++ layout (length pre) k) rest).
  rewrite length_app, length_layout in IH.
  rewrite IH; [done|]. subst st. by rewrite <- !app_assoc.
Qed.

Lemma to_tree_layout t : reads_back t.
Proof.
  induction t as [tg ns at_ tx ks IH] using xml_ind.
  intros fuel store rest Hfuel. rewrite size_Elem in Hfuel.
  destruct fuel as [|fuel]; [lia|].
  rewrite layout_Elem.
  cbn [to_tree]. rewrite lookup_app_r by lia. rewrite Nat.sub_diag.
  simpl.
  pose proof (to_tree_children fuel
                (store ++ (Node tg ns at_ tx (child_ids (S (length store)) ks)
                           :: layout_list (S (length store)) ks) ++ rest)
                ks IH ltac:(lia)
                (store ++ [Node tg ns at_ tx (child_ids (S (length store)) ks)])
                rest) as Hkids.
  rewrite length_app in Hkids. simpl in Hkids.
  rewrite Nat.add_1_r in Hkids.
  rewrite Hkids; [done|]. by rewrite <- !app_assoc.
Qed.

Lemma graft_list_app store p ts ts' :
  graft_list store p (ts ++ ts') = graft_list (graft_list store p ts) p ts'.
Proof. apply fold_left_app. Qed.

Lemma graft_root_snoc store tg ns at_ tx ks t :
  graft (store ++ layout (length store) (Elem tg ns at_ tx ks)) (length store) t
  = store ++ layout (length store) (Elem tg ns at_ tx (ks ++ [t])).
Proof.
  unfold graft. rewrite !layout_Elem.
  rewrite alter_app_r_alt by lia. rewrite Nat.sub_diag. simpl.
  rewrite <- app_assoc. simpl. f_equal.
  rewrite child_ids_app, layout_list_app. simpl.
  rewrite length_app. simpl. rewrite length_layout_list.
  unfold add_child. simpl. rewrite app_nil_r.
  replace (length store + S (size_list ks))%nat
    with (S (length store + size_list ks))%nat by lia.
  done.
Qed.

Lemma graft_list_cons store p t ts :
  graft_list store p (t :: ts) = graft_list (graft store p t) p ts.
Proof. reflexivity. Qed.

Lemma graft_list_root store tg ns at_ tx ks ts :
  graft_list (store ++ layout (length store) (Elem tg ns at_ tx ks))
             (length store) ts
  = store ++ layout (length store) (Elem tg ns at_ tx (ks ++ ts)).
Proof.
  revert ks. induction ts as [|t ts IH]; intros ks.
  - by rewrite app_nil_r.
  - rewrite graft_list_cons, graft_root_snoc, IH. by rewrite <- app_assoc.
Qed.

Lemma length_graft store p t :
  length (graft store p t) = (length store + size t)%nat.
Proof. unfold graft. by rewrite length_app, length_alter, length_layout. Qed.

Lemma length_graft_list store p ts :
  (length store <= length (graft_list store p ts))%nat.
Proof.
  revert store. induction ts as [|t ts IH]; intros store; [simpl; lia|].
  rewrite graft_list_cons. etrans; [|apply IH]. rewrite length_graft. lia.
Qed.

Lemma take_graft store p t :
  (p < length store)%nat -> take p (graft store p t) = take p store.
Proof.
  intros Hp. unfold graft.
  rewrite take_app_le by (rewrite length_alter; lia).
  by apply take_alter_ge.
Qed.

End Store.

Lemma frame_refl p w : frame p w w.
Proof. by repeat split. Qed.

Lemma frame_trans p w1 w2 w3 : frame p w1 w2 -> frame p w2 w3 -> frame p w1 w3.
Proof.
  intros (Hc1 & Hd1 & Hl1 & Ht1) (Hc2 & Hd2 & Hl2 & Ht2).
  repeat split; [congruence | congruence | lia | congruence].
Qed.

Lemma frame_weaken p q w w' : (p <= q)%nat -> frame q w w' -> frame p w w'.
Proof.
  intros Hpq (Hc & Hd & Hl & Ht). repeat split; try done.
  rewrite <- (Nat.min_l p q) by done.
  by rewrite <- !take_take, Ht.
Qed.

Lemma outcome_Ok_inv {A} (r : result A) : outcome r = Ok tt -> exists a, r = Ok a.
Proof. destruct r; [eauto | discriminate]. Qed.

Lemma refines_ret {A} c (a : A) p : refines c (ret a) p (Ok []).
Proof.
  intros w _ _. simpl. split; [done|]. split; [apply frame_refl|].
  by intros ts [= <-].
Qed.

Lemma refines_seq {A B} c (m1 : M A) (m2 : M B) p r1 r2 :
  refines c m1 p r1 -> refines c m2 p r2 ->
  refines c (m1 ;; m2) p (r1 +++ r2).
Proof.
  intros H1 H2 w Hc Hp. unfold bind.
  destruct (H1 w Hc Hp) as (Ho1 & Hf1 & Hs1).
  destruct (m1 w) as [[a|e] w1]; simpl in *.
  - destruct r1 as [ts1|]; [|discriminate]. simpl.
    assert (Hp1 : (p < length (w_nodes w1))%nat)
      by (destruct Hf1 as (_ & _ & ? & _); lia).
    assert (Hc1 : w_clock w1 = c) by (destruct Hf1 as (? & _); congruence).
    destruct (H2 w1 Hc1 Hp1) as (Ho2 & Hf2 & Hs2).
    split; [|split].
    + rewrite Ho2. by destruct r2.
    + by eapply frame_trans.
    + intros ts Hts. destruct r2 as [ts2|]; [|discriminate].
      injection Hts as <-.
      by rewrite graft_list_app, <- (Hs1 _ eq_refl), (Hs2 _ eq_refl).
  - destruct r1 as [ts1|e1]; [discriminate|]. simpl in *.
    split; [done|]. split; [done|]. intros ts [=].
Qed.

(** [m ;; ret a]: the value returned adds nothing to the tree. *)
Lemma refines_then_ret {A B} c (m : M A) (b : B) p r :
  refines c m p r -> refines c (m ;; ret b) p r.
Proof.
  intros H w Hc Hp. unfold bind, ret.
  destruct (H w Hc Hp) as (Ho & Hf & Hs).
  destruct (m w) as [[a|e] w1]; simpl in *; [|done].
  split; [|done]. by destruct r.
Qed.

Lemma refines_lift {A B} c (r : result A) (k : A -> M B) p s :
  (forall x, refines c (k x) p (s x)) ->
  refines c (x <- lift r ;; k x) p (rbind r s).
Proof.
  intros H w Hc Hp. unfold bind, lift. destruct r as [x|e]; simpl.
  - by apply H.
  - split; [done|]. split; [apply frame_refl|]. intros ts [=].
Qed.

Lemma refines_now {B} c (k : datetime -> M B) p s :
  refines c (k c) p s -> refines c (t <- now ;; k t) p s.
Proof. intros H w Hc Hp. unfold bind, now. rewrite Hc. by apply H. Qed.

Lemma refines_if {A} c (b : bool) (m1 m2 : M A) p r1 r2 :
  refines c m1 p r1 -> refines c m2 p r2 ->
  refines c (if b then m1 else m2) p (if b then r1 else r2).
Proof. by destruct b. Qed.

Lemma refines_for_each {A} c (l : list A) (body : A -> M unit) p s :
  (forall x, refines c (body x) p (s x)) ->
  refines c (for_each l body) p (rconcat s l).
Proof.
  intros H. induction l as [|x l IH]; simpl.
  - apply refines_ret.
  - by apply refines_seq.
Qed.

Lemma SubElement_store p tg w :
  w_nodes (snd (SubElement p tg w))
  = alter (add_child (length (w_nodes w))) p (w_nodes w)
    ++ [Node tg None [] None []].
Proof. reflexivity. Qed.

Lemma frame_SubElement p tg w :
  (p < length (w_nodes w))%nat ->
  frame p w (snd (SubElement p tg w)).
Proof.
  intros Hp. repeat split; simpl.
  - rewrite length_app, length_alter. lia.
  - rewrite take_app_le by (rewrite length_alter; lia).
    by apply take_alter_ge.
Qed.

(** An element and what is built below it. *)
Lemma refines_element {B} c p tg (k : elem -> M B) rk :
  (forall e, refines c (k e) e rk) ->
  refines c (e <- SubElement p tg ;; k e) p (element tg rk).
Proof.
  intros H w Hc Hp. unfold bind.
  pose proof (frame_SubElement p tg w Hp) as Hf0.
  pose proof (SubElement_store p tg w) as Hs0.
  remember (SubElement p tg w) as run eqn:Hrun.
  assert (Hres : fst run = Ok (length (w_nodes w))) by (by subst run).
  destruct run as [r w1]. cbn [fst snd] in *. subst r.
  set (store' := alter (add_child (length (w_nodes w))) p (w_nodes w)) in *.
  assert (Hlen : length store' = length (w_nodes w))
    by (unfold store'; apply length_alter).
  destruct (H (length (w_nodes w)) w1) as (Ho & Hf & Hs).
  { destruct Hf0 as (? & _). congruence. }
  { rewrite Hs0, length_app. simpl. lia. }
  split; [|split].
  - rewrite Ho. by destruct rk.
  - eapply frame_trans; [exact Hf0|].
    apply (frame_weaken _ (length (w_nodes w))); [lia | done].
  - intros ts Hts. destruct rk as [ks|]; [|discriminate].
    injection Hts as <-.
    rewrite (Hs _ eq_refl), Hs0, <- Hlen.
    change (store' ++ [Node tg None [] None []])
      with (store' ++ layout (length store') (Elem tg None [] None [])).
    rewrite graft_list_root. simpl app.
    unfold graft_list, graft. simpl fold_left.
    by rewrite Hlen.
Qed.

Lemma set_text_last store tg v w :
  w_nodes w = store ++ [Node tg None [] None []] ->
  set_text (length store) v w
  = match text_of v with
    | Ok tx => (Ok tt, set_nodes w (store ++ [Node tg None [] tx []]))
    | Raise e => (Raise e, w)
    end.
Proof.
  intros Hw. unfold set_text, text_of.
  assert (Halter : forall tx,
            alter (with_text tx) (length store) (w_nodes w)
            = store ++ [Node tg None [] tx []]).
  { intros tx. rewrite Hw, alter_app_r_alt by lia.
    by rewrite Nat.sub_diag. }
  destruct v; try done.
  - by rewrite Halter.
  - destruct (xml_compatible s); [|done]. by rewrite Halter.
Qed.

(** [etree.SubElement(p, tag).text = v] *)
Lemma refines_leaf c p tg v :
  refines c (SubElement_text p tg v) p (leaf tg v).
Proof.
  intros w Hc Hp. unfold SubElement_text, bind.
  pose proof (frame_SubElement p tg w Hp) as Hf0.
  pose proof (SubElement_store p tg w) as Hs0.
  remember (SubElement p tg w) as run eqn:Hrun.
  assert (Hres : fst run = Ok (length (w_nodes w))) by (by subst run).
  destruct run as [r w1]. cbn [fst snd] in *. subst r.
  set (store' := alter (add_child (length (w_nodes w))) p (w_nodes w)) in *.
  assert (Hlen : length store' = length (w_nodes w))
    by (unfold store'; apply length_alter).
  rewrite <- Hlen, (set_text_last store' tg v w1 Hs0).
  unfold leaf. destruct (text_of v) as [tx|e]; cbn [rbind fst snd].
  - split; [done|]. split.
    + destruct Hf0 as (Hc0 & Hd0 & Hl0 & Ht0).
      repeat split; cbn [set_nodes w_clock w_db w_nodes]; try done.
      * rewrite length_app. simpl. lia.
      * rewrite <- Ht0, Hs0. rewrite !take_app_le; [done|lia|lia].
    + by intros ts [= <-].
  - split; [done|]. split; [done|]. intros ts [=].
Qed.

(** [e = etree.SubElement(p, tag)] and, after evaluating [r],
    [e.text = v] *)
Lemma refines_leaf_late c p tg (r : result pyval) :
  refines c (e <- SubElement p tg ;; v <- lift r ;; set_text e v) p
          (rbind r (leaf tg)).
Proof.
  destruct r as [v|e].
  - intros w Hc Hp.
    destruct (refines_leaf c p tg v w Hc Hp) as (Ho & Hf & Hs).
    unfold SubElement_text, bind, lift in *. simpl in *.
    by destruct (set_text _ v _).
  - intros w Hc Hp. unfold bind, lift. simpl.
    split; [done|]. split; [by apply frame_SubElement|]. intros ts [=].
Qed.

Lemma refines_eq {A} c (m : M A) p r r' :
  r = r' -> refines c m p r -> refines c m p r'.
Proof. by intros ->. Qed.

(** ** The builders build their trees *)

Ltac refines_step :=
  lazymatch goal with
  | |- refines _ (bind (SubElement _ _)
                       (fun e => bind (lift _) (fun v => set_text e v))) _ _ =>
      apply refines_leaf_late
  | |- refines _ (bind (SubElement _ _) (fun e => set_text e _)) _ _ =>
      apply refines_leaf
  | |- refines _ (bind (SubElement _ _) _) _ _ =>
      apply refines_element; intros ?
  | |- refines _ (bind (lift _) _) _ _ =>
      apply refines_lift; intros ?
  | |- refines _ (bind now _) _ _ =>
      apply refines_now
  | |- refines _ (bind _ (fun _ => ret _)) _ _ =>
      apply refines_then_ret
  | |- refines _ (bind _ (fun _ => _)) _ _ =>
      apply refines_seq
  | |- refines _ (SubElement_text _ _ _) _ _ =>
      apply refines_leaf
  | |- refines _ (ret _) _ _ =>
      apply refines_ret
  | |- refines _ (if _ then _ else _) _ _ =>
      apply refines_if
  | |- refines _ (for_each _ _) _ _ =>
      apply refines_for_each; intros ?; cbv beta
  | |- refines _ (match ?x with (_, _) => _ end) _ _ =>
      destruct x
  end.

Lemma _create_header_refines c self parent :
  refines c (_create_header self parent) parent (header_tree self c).
Proof. unfold _create_header, header_tree. repeat refines_step. Qed.

Lemma _create_product_identifiers_refines c product_elem isbn :
  refines c (_create_product_identifiers product_elem isbn) product_elem
          (product_identifiers_tree isbn).
Proof.
  unfold _create_product_identifiers, product_identifiers_tree.
  repeat refines_step.
Qed.

Lemma _create_descriptive_detail_refines c product_elem product authors ct :
  refines c (_create_descriptive_detail product_elem product authors ct)
          product_elem (descriptive_detail_tree product authors ct).
Proof.
  unfold _create_descriptive_detail, descriptive_detail_tree, collection_tree,
    contributor_tree.
  repeat refines_step.
Qed.

Lemma _create_collateral_detail_refines c product_elem onix_json :
  refines c (_create_collateral_detail product_elem onix_json) product_elem
          (collateral_detail_tree onix_json).
Proof.
  unfold _create_collateral_detail, collateral_detail_tree,
    text_content_tree, supporting_resource_tree.
  repeat refines_step.
Qed.

Lemma _create_publishing_detail_refines c product_elem publisher :
  refines c (_create_publishing_detail product_elem publisher) product_elem
          (publishing_detail_tree publisher).
Proof.
  unfold _create_publishing_detail, publishing_detail_tree, publisher_tree.
  destruct publisher as [publisher|]; repeat refines_step.
Qed.

Lemma _create_product_supply_refines c product_elem onix_json :
  refines c (_create_product_supply product_elem onix_json) product_elem
          (product_supply_tree onix_json).
Proof.
  unfold _create_product_supply, product_supply_tree, prices_of, price_tree,
    tax_tree.
  repeat refines_step.
Qed.

(** ** The whole call *)

Lemma bind_assoc {A B C} (m : M A) (f : A -> M B) (g : B -> M C) w :
  bind (bind m f) g w = bind m (fun x => bind (f x) g) w.
Proof. unfold bind. by destruct (m w) as [[a|e] w']. Qed.

Lemma bind_Element {B} tg ns attrs (k : elem -> M B) w :
  bind (Element tg ns attrs) k w
  = k (length (w_nodes w))
      (set_nodes w (w_nodes w ++ [Node tg ns attrs None []])).
Proof. reflexivity. Qed.

(** A root element, its content, and the serializer. *)
Lemma run_tostring {A} c (m : M A) tg ns attrs r store w :
  w_nodes w = store ++ [Node tg ns attrs None []] ->
  w_clock w = c ->
  refines c m (length store) r ->
  let run := bind m (fun _ => tostring (length store)) w in
  fst run = rbind (rbind r (fun ks => Ok (Elem tg ns attrs None ks)))
                  etree_tostring
  /\ frame (length store) w (snd run)
  /\ (forall ks, r = Ok ks ->
        w_nodes (snd run)
        = store ++ layout (length store) (Elem tg ns attrs None ks)).
Proof.
  intros Hw Hc Hm. unfold bind.
  destruct (Hm w Hc) as (Ho & Hf & Hs).
  { rewrite Hw, length_app. simpl. lia. }
  destruct (m w) as [[a|e] w1]; cbn [fst snd] in *.
  - destruct r as [ks|]; [|discriminate]. cbn [rbind].
    assert (Hw1 : w_nodes w1
                  = store ++ layout (length store) (Elem tg ns attrs None ks)).
    { rewrite (Hs _ eq_refl), Hw.
      change (store ++ [Node tg ns attrs None []])
        with (store ++ layout (length store) (Elem tg ns attrs None [])).
      by rewrite graft_list_root. }
    unfold tostring.
    assert (Hread : to_tree (length (w_nodes w1)) (w_nodes w1) (length store)
                    = Some (Elem tg ns attrs None ks)).
    { rewrite Hw1.
      rewrite <- (app_nil_r (layout _ _)) at 2.
      apply to_tree_layout.
      rewrite length_app, length_layout. lia. }
    rewrite Hread. cbn [fst snd]. split; [done|]. split; [done|].
    by intros ? [= <-].
  - destruct r as [|e']; [discriminate|]. cbn [rbind outcome] in *.
    split; [congruence|]. split; [done|]. intros ? [=].
Qed.

Lemma generate_product_xml_run self product authors publisher ct w :
  let run := generate_product_xml self product authors publisher ct w in
  fst run
  = rbind (onix_message (w_clock w) self product authors publisher ct)
          etree_tostring
  /\ w_clock (snd run) = w_clock w
  /\ w_db (snd run) = w_db w
  /\ take (length (w_nodes w)) (w_nodes (snd run)) = w_nodes w
  /\ (forall doc,
        onix_message (w_clock w) self product authors publisher ct = Ok doc ->
        w_nodes (snd run) = w_nodes w ++ layout (length (w_nodes w)) doc).
Proof.
  intros run. subst run. unfold generate_product_xml.
  rewrite bind_Element. set (w1 := set_nodes w _).
  rewrite <- bind_assoc.
  lazymatch goal with
  | |- context [bind ?m (fun _ => tostring _) w1] =>
      destruct (run_tostring (w_clock w) m
                  "ONIXMessage" (Some ONIX_NS) [("release", "3.1")]
                  (header_tree self (w_clock w)
                   +++ product_tree product authors publisher ct)
                  (w_nodes w) w1) as (Hres & Hf & Hs); [done | done | |]
  end.
  { apply refines_seq; [apply _create_header_refines|].
    unfold product_tree. repeat refines_step.
    - apply _create_product_identifiers_refines.
    - apply _create_descriptive_detail_refines.
    - apply _create_collateral_detail_refines.
    - apply _create_publishing_detail_refines.
    - apply _create_product_supply_refines. }
  cbv zeta in Hres. rewrite Hres. split; [done|].
  destruct Hf as (Hc & Hd & Hl & Ht). split; [done|]. split; [done|]. split.
  - rewrite Ht. unfold w1. simpl. by rewrite take_app_length.
  - intros doc Hdoc. unfold onix_message in Hdoc.
    destruct (header_tree _ _ +++ product_tree _ _ _ _) as [ks|];
      [|discriminate].
    injection Hdoc as <-. by apply Hs.
Qed.

(** ** Reading off the trees *)

Lemma rbind_Ok {A B} (r : result A) (k : A -> result B) b :
  rbind r k = Ok b -> exists a, r = Ok a /\ k a = Ok b.
Proof. destruct r as [a|]; [eauto | discriminate]. Qed.

Lemma rapp_Ok r1 r2 l :
  r1 +++ r2 = Ok l -> exists a b, r1 = Ok a /\ r2 = Ok b /\ l = a ++ b.
Proof.
  destruct r1 as [a|]; [|discriminate].
  destruct r2 as [b|]; [|discriminate].
  intros [= <-]. eauto.
Qed.

Lemma element_Ok tg rk l :
  element tg rk = Ok l ->
  exists ks, rk = Ok ks /\ l = [Elem tg None [] None ks].
Proof. destruct rk as [ks|]; [|discriminate]. intros [= <-]. eauto. Qed.

Lemma leaf_Ok tg v l :
  leaf tg v = Ok l -> exists tx, text_of v = Ok tx /\ l = [text_leaf tg tx].
Proof.
  unfold leaf. destruct (text_of v) as [tx|]; [|discriminate].
  intros [= <-]. eauto.
Qed.

Lemma leaf_PStr_Ok tg s l :
  leaf tg (PStr s) = Ok l -> l = [text_leaf tg (Some s)].
Proof.
  unfold leaf, text_of. destruct (xml_compatible s); [|discriminate].
  by intros [= <-].
Qed.

Lemma leaf_py_opt_Ok tg o l :
  leaf tg (py_opt o) = Ok l -> l = [text_leaf tg o].
Proof.
  unfold leaf, text_of. destruct o as [s|]; simpl.
  - destruct (xml_compatible s); [|discriminate]. by intros [= <-].
  - by intros [= <-].
Qed.

Ltac inv_tree :=
  repeat match goal with
    | H : Ok _ = Ok _ |- _ => injection H as H; try subst
    | H : Raise _ = Ok _ |- _ => discriminate H
    | H : element _ _ = Ok _ |- _ =>
        let ks := fresh "ks" in
        apply element_Ok in H as (ks & H & ->)
    | H : leaf _ (PStr _) = Ok _ |- _ => apply leaf_PStr_Ok in H as ->
    | H : leaf _ (py_opt _) = Ok _ |- _ => apply leaf_py_opt_Ok in H as ->
    | H : _ +++ _ = Ok _ |- _ =>
        let a := fresh "l" in
        let b := fresh "l" in
        let Ha := fresh "H" in
        apply rapp_Ok in H as (a & b & Ha & H & ->)
    end.

Lemma rconcat_Ok_map {A} (f : A -> result (list xml)) (g : A -> xml) l r :
  (forall x p, f x = Ok p -> p = [g x]) ->
  rconcat f l = Ok r -> r = map g l.
Proof.
  intros Hf. revert r. induction l as [|x l IH]; intros r Hr; simpl in *.
  - by injection Hr as <-.
  - apply rapp_Ok in Hr as (a & b & Ha & Hb & ->).
    by rewrite (Hf _ _ Ha), (IH _ Hb).
Qed.

Lemma contributor_tree_Ok ia l :
  contributor_tree ia = Ok l -> l = [contributor_elem ia].
Proof.
  destruct ia as [i author]. unfold contributor_tree, contributor_elem.
  intros H. inv_tree.
  destruct (opt_truthy (Author.biography author)); inv_tree; done.
Qed.

Lemma product_identifiers_tree_Ok isbn l :
  product_identifiers_tree isbn = Ok l -> l = [product_identifier_elem isbn].
Proof. unfold product_identifiers_tree. intros H. by inv_tree. Qed.

Lemma collection_tree_Ok ct l :
  collection_tree ct = Ok l -> l = [collection_elem ct].
Proof. unfold collection_tree. intros H. by inv_tree. Qed.

Lemma descriptive_detail_tree_Ok product authors ct l :
  descriptive_detail_tree product authors ct = Ok l ->
  l = [descriptive_detail_elem product authors ct].
Proof.
  unfold descriptive_detail_tree, descriptive_detail_elem. intros H.
  inv_tree.
  match goal with
  | H : rconcat _ _ = Ok _ |- _ =>
      apply (rconcat_Ok_map _ contributor_elem) in H as ->;
      [|apply contributor_tree_Ok]
  end.
  destruct (opt_truthy ct); inv_tree; [|done].
  match goal with
  | H : collection_tree _ = Ok _ |- _ => apply collection_tree_Ok in H as ->
  end.
  done.
Qed.

Lemma publishing_detail_tree_Ok publisher l :
  publishing_detail_tree publisher = Ok l ->
  l = [publishing_detail_elem publisher].
Proof.
  unfold publishing_detail_tree, publishing_detail_elem, publisher_tree,
    publisher_elem.
  intros H. inv_tree. destruct publisher as [publisher|]; inv_tree; [|done].
  destruct (opt_truthy (Publisher.gln publisher)); inv_tree; done.
Qed.

Lemma py_get_Ok v key default x :
  py_get v key default = Ok x -> x = get_or v key default.
Proof. unfold get_or. by intros ->. Qed.

Lemma py_iter_Ok v l : py_iter v = Ok l -> l = items_of v.
Proof. unfold items_of. by intros ->. Qed.

Lemma leaf_value_Ok tg v l :
  leaf tg v = Ok l -> l = [text_leaf tg (text_value v)].
Proof.
  unfold leaf, text_of. destruct v; try discriminate; simpl.
  - by intros [= <-].
  - destruct (xml_compatible s); [|discriminate]. by intros [= <-].
Qed.

Lemma get_leaf_Ok v key default tg l :
  rbind (py_get v key default) (leaf tg) = Ok l ->
  l = [text_leaf tg (text_value (get_or v key default))].
Proof.
  intros H. apply rbind_Ok in H as (x & Hx & H).
  apply py_get_Ok in Hx as ->. by apply leaf_value_Ok.
Qed.

Lemma get_str_leaf_Ok v key default tg l :
  rbind (py_get v key default) (fun x => leaf tg (PStr (py_str x))) = Ok l ->
  l = [text_leaf tg (Some (py_str (get_or v key default)))].
Proof.
  intros H. apply rbind_Ok in H as (x & Hx & H).
  apply py_get_Ok in Hx as ->. by apply leaf_PStr_Ok.
Qed.

Ltac inv_get :=
  repeat match goal with
    | H : rbind (py_get _ _ _) (leaf _) = Ok _ |- _ =>
        apply get_leaf_Ok in H as ->
    | H : rbind (py_get _ _ _) (fun x => leaf _ (PStr (py_str x))) = Ok _ |- _ =>
        apply get_str_leaf_Ok in H as ->
    end.

Lemma text_content_tree_Ok tc l :
  text_content_tree tc = Ok l -> l = [text_content_elem tc].
Proof. unfold text_content_tree. intros H. inv_tree. by inv_get. Qed.

Lemma supporting_resource_tree_Ok res l :
  supporting_resource_tree res = Ok l -> l = [supporting_resource_elem res].
Proof. unfold supporting_resource_tree. intros H. inv_tree. by inv_get. Qed.

Lemma collateral_detail_tree_Ok onix_json l :
  py_truthy onix_json = true ->
  collateral_detail_tree onix_json = Ok l ->
  l = [collateral_detail_elem onix_json].
Proof.
  unfold collateral_detail_tree, collateral_detail_elem. intros -> H.
  cbn [negb] in H. inv_tree.
  apply rbind_Ok in H as (v1 & Hv1 & H). apply py_get_Ok in Hv1 as ->.
  apply rbind_Ok in H as (i1 & Hi1 & H). apply py_iter_Ok in Hi1 as ->.
  inv_tree.
  apply rbind_Ok in H as (v2 & Hv2 & H). apply py_get_Ok in Hv2 as ->.
  apply rbind_Ok in H as (i2 & Hi2 & H). apply py_iter_Ok in Hi2 as ->.
  apply (rconcat_Ok_map _ supporting_resource_elem) in H as ->;
    [|apply supporting_resource_tree_Ok].
  match goal with
  | H : rconcat _ _ = Ok _ |- _ =>
      apply (rconcat_Ok_map _ text_content_elem) in H as ->;
      [|apply text_content_tree_Ok]
  end.
  done.
Qed.

Lemma tax_tree_Ok price_data l :
  tax_tree price_data = Ok l -> l = [tax_elem price_data].
Proof. unfold tax_tree. intros H. inv_tree. by inv_get. Qed.

Lemma price_tree_Ok price_data l :
  price_tree price_data = Ok l -> l = [price_elem price_data].
Proof.
  unfold price_tree, price_elem. intros H. inv_tree. inv_get.
  apply rbind_Ok in H as (c & Hc & H). apply py_get_Ok in Hc as ->.
  destruct (py_truthy _); inv_tree; [|done].
  by apply tax_tree_Ok in H as ->.
Qed.

Lemma prices_of_Ok onix_json v :
  prices_of onix_json = Ok v -> v = prices_value onix_json.
Proof.
  unfold prices_of, prices_value. destruct (py_truthy onix_json).
  - apply py_get_Ok.
  - by intros [= <-].
Qed.

Lemma product_supply_tree_Ok onix_json l :
  product_supply_tree onix_json = Ok l ->
  l = if py_truthy (prices_value onix_json)
      then [product_supply_elem onix_json]
      else [].
Proof.
  unfold product_supply_tree, product_supply_elem. intros H.
  apply rbind_Ok in H as (v & Hv & H). apply prices_of_Ok in Hv as ->.
  destruct (py_truthy (prices_value onix_json)); cbn [negb] in H; inv_tree;
    [|done].
  apply rbind_Ok in H as (i & Hi & H). apply py_iter_Ok in Hi as ->.
  by apply (rconcat_Ok_map _ price_elem) in H as ->; [|apply price_tree_Ok].
Qed.

Lemma prices_value_falsy onix_json :
  py_truthy onix_json = false -> py_truthy (prices_value onix_json) = false.
Proof. unfold prices_value. by intros ->. Qed.

Lemma header_tree_Ok self c l :
  header_tree self c = Ok l -> l = [header_elem self c].
Proof.
  unfold header_tree, header_elem. intros H. inv_tree.
  destruct (str_truthy (sender_email self)); inv_tree; done.
Qed.

Lemma product_tree_Ok product authors publisher ct l :
  product_tree product authors publisher ct = Ok l ->
  l = [product_elem product authors publisher ct].
Proof.
  unfold product_tree, product_elem. intros H. inv_tree.
  repeat match goal with
    | H : product_identifiers_tree _ = Ok _ |- _ =>
        apply product_identifiers_tree_Ok in H as ->
    | H : descriptive_detail_tree _ _ _ = Ok _ |- _ =>
        apply descriptive_detail_tree_Ok in H as ->
    | H : publishing_detail_tree _ = Ok _ |- _ =>
        apply publishing_detail_tree_Ok in H as ->
    end.
  destruct (py_truthy (Product.onix_json product)) eqn:Htruthy.
  - match goal with
    | H : collateral_detail_tree _ = Ok _ |- _ =>
        apply collateral_detail_tree_Ok in H as ->; [|done]
    end.
    by apply product_supply_tree_Ok in H as ->.
  - rewrite (prices_value_falsy _ Htruthy). by inv_tree.
Qed.

Lemma onix_message_Ok c self product authors publisher ct doc :
  onix_message c self product authors publisher ct = Ok doc ->
  doc = onix_document c self product authors publisher ct.
Proof.
  unfold onix_message, onix_document. intros H.
  apply rbind_Ok in H as (ks & Hks & H). inv_tree.
  repeat match goal with
    | H : header_tree _ _ = Ok _ |- _ => apply header_tree_Ok in H as ->
    | H : product_tree _ _ _ _ = Ok _ |- _ => apply product_tree_Ok in H as ->
    end.
  done.
Qed.

(** A call that returns has built [onix_document] from its own fresh
    root and passed it to the serializer. *)
Lemma generate_product_xml_Ok self product authors publisher ct w s w' :
  generate_product_xml self product authors publisher ct w = (Ok s, w') ->
  let doc := onix_document (w_clock w) self product authors publisher ct in
  built_document w w' = Some doc
  /\ etree_tostring doc = Ok s
  /\ onix_message (w_clock w) self product authors publisher ct = Ok doc.
Proof.
  intros Hrun doc.
  destruct (generate_product_xml_run self product authors publisher ct w)
    as (Hres & _ & _ & _ & Hstore).
  rewrite Hrun in Hres, Hstore. cbn [fst snd] in *.
  symmetry in Hres. apply rbind_Ok in Hres as (d & Hd & Hs).
  pose proof (onix_message_Ok _ _ _ _ _ _ _ Hd) as ->.
  split; [|done].
  unfold built_document. rewrite (Hstore _ Hd).
  rewrite <- (app_nil_r (layout _ _)) at 2.
  apply to_tree_layout. rewrite length_app, length_layout. unfold doc. lia.
Qed.

(** The blocks of a message that was built were built. *)
Lemma onix_message_blocks c self product authors publisher ct doc :
  onix_message c self product authors publisher ct = Ok doc ->
  exists cd ps,
    (if py_truthy (Product.onix_json product)
     then collateral_detail_tree (Product.onix_json product)
     else Ok []) = Ok cd
    /\ (if py_truthy (Product.onix_json product)
        then product_supply_tree (Product.onix_json product)
        else Ok []) = Ok ps.
Proof.
  unfold onix_message, product_tree. intros H.
  apply rbind_Ok in H as (ks & Hks & _). inv_tree. eauto.
Qed.

Lemma rconcat_Ok_Forall {A} (f : A -> result (list xml)) l r :
  rconcat f l = Ok r -> Forall (fun x => exists p, f x = Ok p) l.
Proof.
  revert r. induction l as [|x l IH]; intros r Hr; simpl in *; [done|].
  apply rapp_Ok in Hr as (a & b & Ha & Hb & ->).
  constructor; eauto.
Qed.

(** ** Selecting in the document *)

Lemma filter_tag_map_same {A} (g : A -> xml) tg l :
  (forall x, xtag (g x) = tg) ->
  List.filter (fun k => String.eqb (xtag k) tg) (map g l) = map g l.
Proof.
  intros Hg. induction l as [|x l IH]; simpl; [done|].
  by rewrite Hg, String.eqb_refl, IH.
Qed.

Lemma filter_tag_map_other {A} (g : A -> xml) tg tg' l :
  (forall x, xtag (g x) = tg') -> String.eqb tg' tg = false ->
  List.filter (fun k => String.eqb (xtag k) tg) (map g l) = [].
Proof.
  intros Hg Hne. induction l as [|x l IH]; simpl; [done|].
  by rewrite Hg, Hne.
Qed.

Lemma xtag_contributor_elem ia : xtag (contributor_elem ia) = "Contributor".
Proof. by destruct ia. Qed.

Lemma xtag_text_content_elem tc : xtag (text_content_elem tc) = "TextContent".
Proof. done. Qed.

Lemma xtag_supporting_resource_elem res :
  xtag (supporting_resource_elem res) = "SupportingResource".
Proof. done. Qed.

Lemma xtag_price_elem price_data : xtag (price_elem price_data) = "Price".
Proof. done. Qed.

Lemma select_cons tg path t :
  select (tg :: path) t = flat_map (select path) (children_named tg t).
Proof. reflexivity. Qed.

Lemma children_named_Elem tg tg0 ns at_ tx ks :
  children_named tg (Elem tg0 ns at_ tx ks)
  = List.filter (fun k => String.eqb (xtag k) tg) ks.
Proof. reflexivity. Qed.

Section Select.

Context (c : datetime) (self : OnixXmlGenerator) (product : Product.t)
  (authors : list Author.t) (publisher : option Publisher.t)
  (ct : option string).

Let doc := onix_document c self product authors publisher ct.

Lemma children_named_Product :
  children_named "Product" doc = [product_elem product authors publisher ct].
Proof. reflexivity. Qed.

Lemma select_Product path :
  select ("Product" :: path) doc
  = select path (product_elem product authors publisher ct).
Proof.
  rewrite select_cons, children_named_Product. simpl. apply app_nil_r.
Qed.

Lemma product_children_tags :
  map xtag (xchildren (product_elem product authors publisher ct))
  = ["RecordReference"; "NotificationType"; "ProductIdentifier";
     "DescriptiveDetail"]
    ++ (if py_truthy (Product.onix_json product)
        then ["CollateralDetail"] else [])
    ++ ["PublishingDetail"]
    ++ (if py_truthy (prices_value (Product.onix_json product))
        then ["ProductSupply"] else []).
Proof.
  unfold product_elem. simpl.
  by destruct (py_truthy (Product.onix_json product)),
       (py_truthy (prices_value (Product.onix_json product))).
Qed.

Lemma select_ProductIdentifier path :
  select ("Product" :: "ProductIdentifier" :: path) doc
  = select path (product_identifier_elem (Product.isbn_13 product)).
Proof.
  rewrite select_Product, select_cons. unfold product_elem.
  rewrite children_named_Elem.
  destruct (py_truthy (Product.onix_json product)),
    (py_truthy (prices_value (Product.onix_json product)));
    simpl; apply app_nil_r.
Qed.

Lemma select_DescriptiveDetail path :
  select ("Product" :: "DescriptiveDetail" :: path) doc
  = select path (descriptive_detail_elem product authors ct).
Proof.
  rewrite select_Product, select_cons. unfold product_elem.
  rewrite children_named_Elem.
  destruct (py_truthy (Product.onix_json product)),
    (py_truthy (prices_value (Product.onix_json product)));
    simpl; apply app_nil_r.
Qed.

Lemma select_PublishingDetail path :
  select ("Product" :: "PublishingDetail" :: path) doc
  = select path (publishing_detail_elem publisher).
Proof.
  rewrite select_Product, select_cons. unfold product_elem.
  rewrite children_named_Elem.
  destruct (py_truthy (Product.onix_json product)),
    (py_truthy (prices_value (Product.onix_json product)));
    simpl; apply app_nil_r.
Qed.

Lemma select_CollateralDetail path :
  select ("Product" :: "CollateralDetail" :: path) doc
  = if py_truthy (Product.onix_json product)
    then select path (collateral_detail_elem (Product.onix_json product))
    else [].
Proof.
  rewrite select_Product, select_cons. unfold product_elem.
  rewrite children_named_Elem.
  destruct (py_truthy (Product.onix_json product)),
    (py_truthy (prices_value (Product.onix_json product)));
    simpl; try done; apply app_nil_r.
Qed.

Lemma select_ProductSupply path :
  select ("Product" :: "ProductSupply" :: path) doc
  = if py_truthy (prices_value (Product.onix_json product))
    then select path (product_supply_elem (Product.onix_json product))
    else [].
Proof.
  rewrite select_Product, select_cons. unfold product_elem.
  rewrite children_named_Elem.
  destruct (py_truthy (Product.onix_json product)),
    (py_truthy (prices_value (Product.onix_json product)));
    simpl; try done; apply app_nil_r.
Qed.

Lemma select_Contributor path :
  select ("Product" :: "DescriptiveDetail" :: "Contributor" :: path) doc
  = flat_map (select path) (map contributor_elem (enumerate 1 authors)).
Proof.
  rewrite select_DescriptiveDetail, select_cons.
  unfold descriptive_detail_elem. rewrite children_named_Elem.
  rewrite !List.filter_app.
  rewrite (filter_tag_map_same _ _ _ xtag_contributor_elem).
  by destruct (opt_truthy ct); simpl; rewrite app_nil_r.
Qed.

Lemma select_DescriptiveDetail_child tg path :
  String.eqb "Contributor" tg = false ->
  select ("Product" :: "DescriptiveDetail" :: tg :: path) doc
  = flat_map (select path)
      (List.filter (fun k => String.eqb (xtag k) tg)
         ([text_leaf "ProductComposition" (Some "00");
           text_leaf "ProductForm"
             (Some (or_default (Product.product_form product) "BC"));
           Elem "TitleDetail" None [] None
             [text_leaf "TitleType" (Some "01");
              Elem "TitleElement" None [] None
                [text_leaf "TitleElementLevel" (Some "01");
                 text_leaf "TitleText" (Some (Product.title product))]]]
          ++ (if opt_truthy ct then [collection_elem ct] else [])
          ++ [Elem "Language" None [] None
                [text_leaf "LanguageRole" (Some "01");
                 text_leaf "LanguageCode"
                   (Some (or_default (Product.language product) "ukr"))]])).
Proof.
  intros Hne.
  rewrite select_DescriptiveDetail, select_cons.
  unfold descriptive_detail_elem. rewrite children_named_Elem.
  rewrite !List.filter_app.
  by rewrite (filter_tag_map_other _ _ _ _ xtag_contributor_elem Hne).
Qed.

End Select.

(** ** Properties of the encoder *)


Lemma length_enumerate {A} start (l : list A) :
  length (enumerate start l) = length l.
Proof.
  revert start. induction l as [|x l IH]; intros start; simpl; [done|].
  by rewrite IH.
Qed.

Lemma enumerate_lookup {A} start (l : list A) (k : nat) :
  enumerate start l !! k = (fun x => (start + Z.of_nat k, x)) <$> l !! k.
Proof.
  revert start k. induction l as [|x l IH]; intros start k; [done|].
  destruct k as [|k]; simpl.
  - by rewrite Z.add_0_r.
  - rewrite IH. destruct (l !! k); simpl; [|done].
    do 2 f_equal. lia.
Qed.

Lemma flat_map_select_nil (l : list xml) : flat_map (select []) l = l.
Proof.
  induction l as [|x l IH]; [done|].
  change (flat_map (select []) (x :: l)) with (x :: flat_map (select []) l).
  by rewrite IH.
Qed.

Lemma person_names_of_contributors start authors :
  map xtext
    (flat_map (select ["PersonName"])
       (map contributor_elem (enumerate start authors)))
  = map (fun a => Some (Author.full_name a)) authors.
Proof.
  revert start. induction authors as [|a authors IH]; intros start; [done|].
  cbn [enumerate map flat_map]. rewrite map_app, IH. clear IH.
  unfold contributor_elem. rewrite select_cons, children_named_Elem.
  by destruct (opt_truthy (Author.biography a)).
Qed.


Lemma contributor_lookup start authors (k : nat) author :
  authors !! k = Some author ->
  map contributor_elem (enumerate start authors) !! k
  = Some (contributor_elem (start + Z.of_nat k, author)).
Proof.
  intros Hk.
  change (map contributor_elem (enumerate start authors))
    with (contributor_elem <$> enumerate start authors).
  by rewrite list_lookup_fmap, enumerate_lookup, Hk.
Qed.



Lemma or_default_falsy o default :
  opt_truthy o = false -> or_default o default = default.
Proof. destruct o as [x|]; simpl; [by intros -> | done]. Qed.


(** C8.  The outcome of [generate_product_xml] (the string returned or
    the exception raised) is determined by its arguments and the reading
    of the clock: two calls on the same input at the same clock reading
    give the same outcome, whatever else the two states hold. *)
Theorem C8_deterministic
    self product authors publisher collection_title w1 w2 :
  w_clock w1 = w_clock w2 ->
  fst (generate_product_xml self product authors publisher collection_title w1)
  = fst (generate_product_xml self product authors publisher collection_title
           w2).
Proof.
  intros Hclock.
  destruct (generate_product_xml_run self product authors publisher
              collection_title w1) as (-> & _).
  destruct (generate_product_xml_run self product authors publisher
              collection_title w2) as (-> & _).
  by rewrite Hclock.
Qed.

Lemma tags_Elem tg ns at_ tx ks :
  tags (Elem tg ns at_ tx ks) = tg :: tags_list ks.
Proof. reflexivity. Qed.

Lemma tags_list_app ks ks' :
  tags_list (ks ++ ks') = tags_list ks ++ tags_list ks'.
Proof.
  induction ks as [|k ks IH]; simpl; [done|]. by rewrite IH, app_assoc.
Qed.

Lemma tags_contributors tg l :
  In tg (tags_list (map contributor_elem l)) ->
  In tg ["Contributor"; "SequenceNumber"; "ContributorRole"; "PersonName";
         "BiographicalNote"].
Proof.
  induction l as [|[i a] l IH]; [done|].
  cbn [map tags_list]. rewrite in_app_iff. intros [H|H]; [|by apply IH].
  unfold contributor_elem in H.
  destruct (opt_truthy (Author.biography a)); simpl in H; simpl; tauto.
Qed.


Lemma collateral_detail_inputs onix_json l :
  py_truthy onix_json = true ->
  collateral_detail_tree onix_json = Ok l ->
  exists text_contents resources,
    rbind (py_get onix_json "text_content" (PList [])) py_iter
    = Ok text_contents
    /\ rbind (py_get onix_json "supporting_resources" (PList [])) py_iter
       = Ok resources
    /\ items_of (get_or onix_json "text_content" (PList [])) = text_contents
    /\ items_of (get_or onix_json "supporting_resources" (PList []))
       = resources.
Proof.
  unfold collateral_detail_tree. intros -> H. cbn [negb] in H. inv_tree.
  apply rbind_Ok in H as (v1 & Hv1 & H).
  apply rbind_Ok in H as (i1 & Hi1 & H).
  inv_tree.
  apply rbind_Ok in H as (v2 & Hv2 & H).
  apply rbind_Ok in H as (i2 & Hi2 & H).
  exists i1, i2. rewrite Hv1, Hv2. simpl.
  pose proof (py_get_Ok _ _ _ _ Hv1) as <-.
  pose proof (py_get_Ok _ _ _ _ Hv2) as <-.
  repeat split; try done; symmetry; by apply py_iter_Ok.
Qed.

Lemma map_xtag_const {A} (g : A -> xml) tg (l : list A) :
  (forall x, xtag (g x) = tg) -> map xtag (map g l) = repeat tg (length l).
Proof.
  intros Hg. induction l as [|x l IH]; simpl; [done|]. by rewrite Hg, IH.
Qed.


Lemma price_tree_dict price_data l :
  price_tree price_data = Ok l -> exists d, price_data = PDict d.
Proof.
  unfold price_tree. intros H. inv_tree.
  match goal with
  | H : rbind (py_get _ "price_type" _) _ = Ok _ |- _ =>
      apply rbind_Ok in H as (x & Hx & _)
  end.
  destruct price_data; try discriminate. eauto.
Qed.

Lemma price_elem_tax d :
  children_named "Tax" (price_elem (PDict d))
  = match assoc "tax_rate_percent" d with
    | Some rate =>
        if py_truthy rate
        then [Elem "Tax" None [] None
                [Elem "TaxType" None [] (Some "01") [];
                 Elem "TaxRateCode" None []
                   (text_value (match assoc "tax_rate_code" d with
                                | Some code => code
                                | None => PStr "S"
                                end)) [];
                 Elem "TaxRatePercent" None [] (Some (py_str rate)) []]]
        else []
    | None => []
    end.
Proof.
  unfold price_elem, tax_elem, get_or, py_get. rewrite children_named_Elem.
  destruct (assoc "tax_rate_percent" d) as [rate|]; [|done].
  by destruct (py_truthy rate).
Qed.

Lemma py_truthy_items v : py_truthy v = false -> items_of v = [].
Proof.
  destruct v as [| | | |s|l|d]; try done; unfold items_of; simpl.
  - by destruct s.
  - by destruct l.
  - by destruct d.
Qed.

Lemma select_Price c self product authors publisher ct :
  select ["Product"; "ProductSupply"; "SupplyDetail"; "Price"]
    (onix_document c self product authors publisher ct)
  = map price_elem (items_of (prices_value (Product.onix_json product))).
Proof.
  rewrite select_ProductSupply.
  destruct (py_truthy (prices_value (Product.onix_json product))) eqn:E.
  - unfold product_supply_elem.
    rewrite select_cons, children_named_Elem. cbn [List.filter xtag String.eqb
      Ascii.eqb Bool.eqb flat_map]. rewrite app_nil_r.
    rewrite select_cons, children_named_Elem. cbn [List.filter].
    change (String.eqb (xtag (text_leaf "ProductAvailability" (Some "20")))
              "Price") with false. cbv iota.
    rewrite (filter_tag_map_same _ _ _ xtag_price_elem).
    apply flat_map_select_nil.
  - by rewrite (py_truthy_items _ E).
Qed.


(** ** The state around a call *)

Lemma untouched_refl w : untouched w w.
Proof. repeat split. by rewrite take_ge. Qed.

Lemma untouched_trans w1 w2 w3 :
  untouched w1 w2 -> untouched w2 w3 -> untouched w1 w3.
Proof.
  intros (Hd1 & Hc1 & Ht1) (Hd2 & Hc2 & Ht2).
  repeat split; [congruence | congruence |].
  assert (Hlen : (length (w_nodes w1) <= length (w_nodes w2))%nat).
  { rewrite <- Ht1 at 1. rewrite length_take. lia. }
  rewrite <- Ht2 in Ht1. rewrite take_take in Ht1.
  by rewrite Nat.min_l in Ht1.
Qed.

Lemma untouched_bind {A B} (m : M A) (k : A -> M B) w :
  untouched w (snd (m w)) ->
  (forall a w1, untouched w1 (snd (k a w1))) ->
  untouched w (snd (bind m k w)).
Proof.
  intros Hm Hk. unfold bind. destruct (m w) as [[a|e] w1]; [|done].
  eapply untouched_trans; [exact Hm | apply Hk].
Qed.

Lemma untouched_generate self product authors publisher ct w :
  untouched w (snd (generate_product_xml self product authors publisher ct w)).
Proof.
  destruct (generate_product_xml_run self product authors publisher ct w)
    as (_ & Hc & Hd & Ht & _).
  by repeat split.
Qed.

Lemma untouched_scalar_one_or_none {A} (rows : list A) w :
  untouched w (snd (scalar_one_or_none rows w)).
Proof. destruct rows as [|x [|y rows]]; apply untouched_refl. Qed.

Lemma untouched_export isbn w :
  untouched w (snd (export_product_onix isbn w)).
Proof.
  unfold export_product_onix.
  apply untouched_bind; [apply untouched_refl|]. intros rows w1.
  apply untouched_bind; [apply untouched_scalar_one_or_none|].
  intros [product|] w2; [|apply untouched_refl].
  apply untouched_bind.
  { destruct (Product.authors product); apply untouched_refl. }
  intros authors w3. apply untouched_bind.
  { destruct (Product.publisher_id product); [|apply untouched_refl].
    apply untouched_bind; [apply untouched_refl|]. intros.
    apply untouched_scalar_one_or_none. }
  intros publisher w4. apply untouched_bind.
  { destruct (Product.collection_id product); [|apply untouched_refl].
    apply untouched_bind; [apply untouched_refl|]. intros.
    apply untouched_bind; [apply untouched_scalar_one_or_none|]. intros.
    apply untouched_refl. }
  intros ct w5. apply untouched_bind; [apply untouched_generate|].
  intros. apply untouched_refl.
Qed.


(** ** When the encoder returns *)

Lemma valid_xml_utf8_printable bytes :
  Forall (fun b => 32 <= b < 127) bytes -> valid_xml_utf8 bytes = true.
Proof.
  induction 1 as [|b rest Hb _ IH]; [done|].
  cbn [valid_xml_utf8]. rewrite IH, andb_true_r.
  replace (b <? 32) with false by (symmetry; apply Z.ltb_ge; lia).
  destruct rest as [|b1 [|b2 rest']]; try done.
  replace (b =? 239) with false by (symmetry; apply Z.eqb_neq; lia).
  replace (b =? 237) with false by (symmetry; apply Z.eqb_neq; lia).
  done.
Qed.

Lemma xml_compatible_printable s :
  printableb s = true -> xml_compatible s = true.
Proof.
  unfold printableb, xml_compatible. intros H.
  apply valid_xml_utf8_printable. rewrite forallb_forall in H.
  apply List.Forall_forall. intros b Hb. apply in_map_iff in Hb as (c & <- & Hc).
  specialize (H c Hc). cbv zeta in H. lia.
Qed.

Lemma printableb_String c s :
  printableb (String c s)
  = (let n := Z.of_nat (nat_of_ascii c) in (32 <=? n) && (n <? 127))
    && printableb s.
Proof. reflexivity. Qed.

Lemma printableb_app a b :
  printableb (a +:+ b) = printableb a && printableb b.
Proof.
  induction a as [|c a IH]; [done|].
  change (String c a +:+ b) with (String c (a +:+ b)).
  by rewrite !printableb_String, IH, andb_assoc.
Qed.

Lemma printableb_substring n m s :
  printableb s = true -> printableb (substring n m s) = true.
Proof.
  revert n m. induction s as [|c s IH]; intros n m Hs.
  - by destruct n, m.
  - rewrite printableb_String in Hs. apply andb_prop in Hs as (Hc & Hs).
    destruct n as [|n]; [destruct m as [|m]|]; simpl; try done.
    + change (printableb (String c (substring 0 m s)) = true).
      rewrite printableb_String, Hc. by apply IH.
    + by apply IH.
Qed.

Lemma printableb_zeros n : printableb (zeros n) = true.
Proof. induction n as [|n IH]; [done|]. simpl. exact IH. Qed.

Lemma printableb_uint d : printableb (NilEmpty.string_of_uint d) = true.
Proof. induction d; simpl; try done; rewrite printableb_String; by rewrite IHd. Qed.

Lemma printableb_str_int n : printableb (str_int n) = true.
Proof.
  unfold str_int, NilZero.string_of_int, NilZero.string_of_uint.
  destruct (Z.to_int n) as [d|d].
  - destruct d; try done; apply printableb_uint.
  - rewrite printableb_String. simpl.
    destruct d; try done; apply printableb_uint.
Qed.

Lemma printableb_pad width n : printableb (pad width n) = true.
Proof.
  unfold pad. by rewrite printableb_app, printableb_zeros, printableb_str_int.
Qed.

Lemma printableb_strftime t : printableb (strftime t) = true.
Proof.
  unfold strftime. by rewrite !printableb_app, !printableb_pad.
Qed.

Lemma printableb_hex_fixed width n : printableb (hex_fixed width n) = true.
Proof.
  revert n. induction width as [|width IH]; intros n; [done|].
  cbn [hex_fixed]. rewrite printableb_app, IH. cbn [andb].
  rewrite printableb_String.
  assert (Hd : 0 <= n mod 16 < 16) by (apply Z.mod_pos_bound; lia).
  destruct (n mod 16) as [|p|p]; [done| |lia].
  do 4 (destruct p as [p|p|]; try done); lia.
Qed.

Lemma printableb_str_uuid u : printableb (str_uuid u) = true.
Proof.
  unfold str_uuid. cbv zeta. rewrite !printableb_app.
  by rewrite !printableb_substring by apply printableb_hex_fixed.
Qed.

Lemma leaf_PStr tg s :
  xml_compatible s = true -> leaf tg (PStr s) = Ok [text_leaf tg (Some s)].
Proof. unfold leaf, text_of. by intros ->. Qed.

Lemma leaf_py_opt tg o :
  text_ok o = true -> leaf tg (py_opt o) = Ok [text_leaf tg o].
Proof.
  unfold leaf, text_of. destruct o as [s|]; simpl; [by intros -> | done].
Qed.

Lemma xml_compatible_or_default o default :
  text_ok o = true -> xml_compatible default = true ->
  xml_compatible (or_default o default) = true.
Proof.
  destruct o as [s|]; simpl; [|done]. by destruct (str_truthy s).
Qed.

Lemma contributors_plain start authors :
  forallb author_ok authors = true ->
  rconcat contributor_tree (enumerate start authors)
  = Ok (map contributor_elem (enumerate start authors)).
Proof.
  revert start. induction authors as [|a authors IH]; intros start H; [done|].
  cbn [forallb] in H. apply andb_prop in H as (Ha & H).
  apply andb_prop in Ha as (Hname & Hbio).
  cbn [enumerate rconcat map]. rewrite (IH _ H).
  unfold contributor_tree, contributor_elem.
  rewrite !leaf_PStr
    by (done || apply xml_compatible_printable, printableb_str_int).
  destruct (opt_truthy (Author.biography a)); [|done].
  by rewrite leaf_py_opt.
Qed.


(** * Further properties of the encoder *)

(** [d.get(key, default)] on the items of a dict. *)
Definition dict_get (d : list (string * pyval)) (key : string)
    (default : pyval) : pyval :=
  match assoc key d with
  | Some x => x
  | None => default
  end.

Lemma get_or_PDict d key default :
  get_or (PDict d) key default = dict_get d key default.
Proof. reflexivity. Qed.






Lemma text_content_tree_dict tc l :
  text_content_tree tc = Ok l -> exists d, tc = PDict d.
Proof.
  unfold text_content_tree. intros H. inv_tree.
  match goal with
  | H : rbind (py_get _ "text_type" _) _ = Ok _ |- _ =>
      apply rbind_Ok in H as (x & Hx & _)
  end.
  destruct tc; try discriminate. eauto.
Qed.

Lemma supporting_resource_tree_dict res l :
  supporting_resource_tree res = Ok l -> exists d, res = PDict d.
Proof.
  unfold supporting_resource_tree. intros H. inv_tree.
  match goal with
  | H : rbind (py_get _ "resource_content_type" _) _ = Ok _ |- _ =>
      apply rbind_Ok in H as (x & Hx & _)
  end.
  destruct res; try discriminate. eauto.
Qed.

Lemma collateral_detail_items onix_json l :
  py_truthy onix_json = true ->
  collateral_detail_tree onix_json = Ok l ->
  Forall (fun tc => exists d, tc = PDict d)
         (items_of (get_or onix_json "text_content" (PList [])))
  /\ Forall (fun res => exists d, res = PDict d)
            (items_of (get_or onix_json "supporting_resources" (PList []))).
Proof.
  unfold collateral_detail_tree. intros -> H. cbn [negb] in H. inv_tree.
  apply rbind_Ok in H as (v1 & Hv1 & H). apply py_get_Ok in Hv1 as ->.
  apply rbind_Ok in H as (i1 & Hi1 & H). apply py_iter_Ok in Hi1 as ->.
  inv_tree.
  apply rbind_Ok in H as (v2 & Hv2 & H). apply py_get_Ok in Hv2 as ->.
  apply rbind_Ok in H as (i2 & Hi2 & H). apply py_iter_Ok in Hi2 as ->.
  split.
  - match goal with
    | H : rconcat text_content_tree _ = Ok _ |- _ =>
        apply rconcat_Ok_Forall in H
    end.
    eapply Forall_impl; [eassumption|].
    intros tc (p & Hp). by eapply text_content_tree_dict.
  - apply rconcat_Ok_Forall in H.
    eapply Forall_impl; [eassumption|].
    intros res (p & Hp). by eapply supporting_resource_tree_dict.
Qed.

Lemma select_TextContent c self product authors publisher ct :
  py_truthy (Product.onix_json product) = true ->
  select ["Product"; "CollateralDetail"; "TextContent"]
    (onix_document c self product authors publisher ct)
  = map text_content_elem
      (items_of (get_or (Product.onix_json product) "text_content"
                   (PList []))).
Proof.
  intros Htruthy. rewrite select_CollateralDetail, Htruthy.
  unfold collateral_detail_elem.
  rewrite select_cons, children_named_Elem, List.filter_app.
  rewrite (filter_tag_map_same _ _ _ xtag_text_content_elem).
  rewrite (filter_tag_map_other _ _ "SupportingResource")
    by (apply xtag_supporting_resource_elem || done).
  rewrite app_nil_r. apply flat_map_select_nil.
Qed.

Lemma select_SupportingResource c self product authors publisher ct :
  py_truthy (Product.onix_json product) = true ->
  select ["Product"; "CollateralDetail"; "SupportingResource"]
    (onix_document c self product authors publisher ct)
  = map supporting_resource_elem
      (items_of (get_or (Product.onix_json product) "supporting_resources"
                   (PList []))).
Proof.
  intros Htruthy. rewrite select_CollateralDetail, Htruthy.
  unfold collateral_detail_elem.
  rewrite select_cons, children_named_Elem, List.filter_app.
  rewrite (filter_tag_map_same _ _ _ xtag_supporting_resource_elem).
  rewrite (filter_tag_map_other _ _ "TextContent")
    by (apply xtag_text_content_elem || done).
  apply flat_map_select_nil.
Qed.

Lemma Forall2_map_dict {A} (P : pyval -> A -> Prop) (g : pyval -> A) items :
  Forall (fun v => exists d, v = PDict d) items ->
  (forall d, P (PDict d) (g (PDict d))) ->
  Forall2 P items (map g items).
Proof.
  intros Hitems HP. induction Hitems as [|v items (d & ->) _ IH]; simpl;
    constructor; auto.
Qed.



Lemma product_supply_items onix_json l :
  product_supply_tree onix_json = Ok l ->
  Forall (fun pd => exists d, pd = PDict d)
         (items_of (prices_value onix_json)).
Proof.
  unfold product_supply_tree. intros H.
  apply rbind_Ok in H as (v & Hv & H). apply prices_of_Ok in Hv as ->.
  destruct (py_truthy (prices_value onix_json)) eqn:Hprices.
  - cbn [negb] in H. inv_tree.
    apply rbind_Ok in H as (i & Hi & H). apply py_iter_Ok in Hi as ->.
    apply rconcat_Ok_Forall in H.
    eapply Forall_impl; [eassumption|].
    intros pd (p & Hp). by eapply price_tree_dict.
  - by rewrite (py_truthy_items _ Hprices).
Qed.


(** ** When the encoder raises *)

(** All the texts of an aggregate outside its supplementary metadata can
    be stored by lxml. *)
Definition texts_ok (self : OnixXmlGenerator) (product : Product.t)
    (authors : list Author.t) (publisher : option Publisher.t)
    (collection_title : option string) : bool :=
  xml_compatible (sender_name self)
  && xml_compatible (sender_email self)
  && text_ok (Product.isbn_13 product)
  && xml_compatible (Product.title product)
  && text_ok (Product.product_form product)
  && text_ok (Product.language product)
  && forallb author_ok authors
  && publisher_ok publisher
  && text_ok collection_title.

(** What the two builders that read the supplementary metadata add. *)
Definition metadata_trees (onix_json : pyval) : result (list xml) :=
  (if py_truthy onix_json then collateral_detail_tree onix_json else Ok [])
  +++ (if py_truthy onix_json then product_supply_tree onix_json else Ok []).

Lemma publishing_detail_plain publisher :
  publisher_ok publisher = true ->
  publishing_detail_tree publisher = Ok [publishing_detail_elem publisher].
Proof.
  unfold publishing_detail_tree, publishing_detail_elem, publisher_tree,
    publisher_elem.
  destruct publisher as [pb|]; cbn [publisher_ok]; [|done].
  intros H. apply andb_prop in H as (Hname & Hgln).
  rewrite !leaf_PStr by done.
  destruct (opt_truthy (Publisher.gln pb)); [|done].
  by rewrite leaf_py_opt.
Qed.

Lemma descriptive_detail_plain product authors ct :
  xml_compatible (Product.title product) = true ->
  text_ok (Product.product_form product) = true ->
  text_ok (Product.language product) = true ->
  forallb author_ok authors = true ->
  text_ok ct = true ->
  descriptive_detail_tree product authors ct
  = Ok [descriptive_detail_elem product authors ct].
Proof.
  intros Htitle Hform Hlang Hauthors Hct.
  unfold descriptive_detail_tree, descriptive_detail_elem, collection_tree,
    collection_elem.
  rewrite (contributors_plain _ _ Hauthors).
  rewrite !leaf_PStr by first [ done | by apply xml_compatible_or_default ].
  destruct (opt_truthy ct); [|done]. by rewrite leaf_py_opt.
Qed.

Lemma header_plain self c :
  xml_compatible (sender_name self) = true ->
  xml_compatible (sender_email self) = true ->
  header_tree self c = Ok [header_elem self c].
Proof.
  intros Hname Hemail. unfold header_tree, header_elem.
  rewrite !leaf_PStr
    by first [ done | apply xml_compatible_printable, printableb_strftime ].
  by destruct (str_truthy (sender_email self)).
Qed.

(** With storable texts, whether the encoder raises, and what, is
    decided by the supplementary metadata alone. *)
Lemma onix_message_outcome c self product authors publisher ct :
  texts_ok self product authors publisher ct = true ->
  outcome (onix_message c self product authors publisher ct)
  = outcome (metadata_trees (Product.onix_json product)).
Proof.
  unfold texts_ok. intros H.
  apply andb_prop in H as (H & Hct).
  apply andb_prop in H as (H & Hpub).
  apply andb_prop in H as (H & Hauthors).
  apply andb_prop in H as (H & Hlang).
  apply andb_prop in H as (H & Hform).
  apply andb_prop in H as (H & Htitle).
  apply andb_prop in H as (H & Hisbn).
  apply andb_prop in H as (Hsender & Hemail).
  unfold onix_message, product_tree, metadata_trees, product_identifiers_tree.
  rewrite (header_plain _ _ Hsender Hemail).
  rewrite (descriptive_detail_plain _ _ _ Htitle Hform Hlang Hauthors Hct).
  rewrite (publishing_detail_plain _ Hpub).
  rewrite !leaf_PStr
    by first [ done | apply xml_compatible_printable, printableb_str_uuid ].
  rewrite leaf_py_opt by done.
  destruct (if py_truthy (Product.onix_json product)
            then collateral_detail_tree (Product.onix_json product)
            else Ok []) as [cd|e]; [|done].
  by destruct (if py_truthy (Product.onix_json product)
               then product_supply_tree (Product.onix_json product)
               else Ok []) as [ps|e].
Qed.

Lemma generate_raises self product authors publisher ct w e :
  texts_ok self product authors publisher ct = true ->
  metadata_trees (Product.onix_json product) = Raise e ->
  fst (generate_product_xml self product authors publisher ct w) = Raise e.
Proof.
  intros Htexts Hmeta.
  destruct (generate_product_xml_run self product authors publisher ct w)
    as (-> & _).
  pose proof (onix_message_outcome (w_clock w) _ _ _ _ _ Htexts) as Ho.
  rewrite Hmeta in Ho.
  destruct (onix_message _ _ _ _ _ _) as [doc|e']; [discriminate|].
  simpl in *. congruence.
Qed.

(** X10.  Supplementary metadata that is not a dict ([generate_product_xml],
    line 175, and [_create_collateral_detail], line 90).  For an
    aggregate with storable texts whose [onix_json] is truthy but not a
    dict (a non-empty list or string, a non-zero number, [True]), the
    call raises [AttributeError]: the value passes the test
    [if product.onix_json] and has no [get]. *)
Theorem metadata_not_a_dict_raises
    self product authors publisher collection_title w :
  texts_ok self product authors publisher collection_title = true ->
  py_truthy (Product.onix_json product) = true ->
  (forall d, Product.onix_json product <> PDict d) ->
  fst (generate_product_xml self product authors publisher collection_title w)
  = Raise AttributeError.
Proof.
  intros Htexts Htruthy Hdict. apply generate_raises; [done|].
  unfold metadata_trees, collateral_detail_tree. rewrite Htruthy.
  cbn [negb].
  destruct (Product.onix_json product) as [| | | | | |d]; try done.
  by destruct (Hdict d).
Qed.

(** X11.  A sub-list that cannot be iterated ([_create_collateral_detail],
    lines 90-91).  For an aggregate with storable texts whose metadata is
    a non-empty dict in which [text_content] is present but is [None], a
    number or a boolean, the call raises [TypeError], whatever the prices
    are: [get] returns the stored value, not the default []. *)
Theorem text_content_not_iterable_raises
    self product authors publisher collection_title w d :
  texts_ok self product authors publisher collection_title = true ->
  Product.onix_json product = PDict d ->
  py_iter (dict_get d "text_content" (PList [])) = Raise TypeError ->
  fst (generate_product_xml self product authors publisher collection_title w)
  = Raise TypeError.
Proof.
  intros Htexts Hjson Hiter. apply generate_raises; [done|].
  unfold metadata_trees, collateral_detail_tree. rewrite Hjson.
  destruct d as [|kv d']; [done|]. cbn [py_truthy negb py_get].
  fold (dict_get (kv :: d') "text_content" (PList [])).
  cbn [rbind]. by rewrite Hiter.
Qed.

(** X12.  A text lxml cannot store ([_create_descriptive_detail], line 53).
    When the sender name and email, the ISBN and the product form can be
    stored but the title cannot (it holds a control character, say), the
    call raises [ValueError]. *)
Theorem title_not_storable_raises
    self product authors publisher collection_title w :
  xml_compatible (sender_name self) = true ->
  xml_compatible (sender_email self) = true ->
  text_ok (Product.isbn_13 product) = true ->
  text_ok (Product.product_form product) = true ->
  xml_compatible (Product.title product) = false ->
  fst (generate_product_xml self product authors publisher collection_title w)
  = Raise ValueError.
Proof.
  intros Hsender Hemail Hisbn Hform Htitle.
  destruct (generate_product_xml_run self product authors publisher
              collection_title w) as (-> & _).
  unfold onix_message, product_tree, product_identifiers_tree,
    descriptive_detail_tree.
  rewrite (header_plain _ _ Hsender Hemail).
  rewrite !leaf_PStr
    by first [ done | apply xml_compatible_printable, printableb_str_uuid
             | by apply xml_compatible_or_default ].
  rewrite leaf_py_opt by done.
  unfold leaf at 1. unfold text_of. by rewrite Htitle.
Qed.

(** ** An ISBN that passed validation *)

Lemma digits_printable l :
  forallb is_digit l = true ->
  forallb (fun c => let n := Z.of_nat (nat_of_ascii c) in
                    (32 <=? n) && (n <? 127)) l = true.
Proof.
  rewrite !forallb_forall. intros H c Hc. specialize (H c Hc).
  unfold is_digit in H. cbv zeta in *. lia.
Qed.

Lemma validate_isbn_Ok v isbn :
  validate_isbn v = Ok isbn ->
  isbn = v /\ String.length v = 13%nat /\ xml_compatible v = true.
Proof.
  unfold validate_isbn. intros H.
  destruct (Z.of_nat (String.length v) =? 13) eqn:Hlen; [|done].
  destruct (forallb is_digit (list_ascii_of_string v)) eqn:Hdigits; [|done].
  injection H as <-. split; [done|]. split; [lia|].
  by apply xml_compatible_printable, digits_printable.
Qed.

(** X13.  Validation and the identifier builder ([validate_isbn] in
    [schemas.py] and [_create_product_identifiers]).  An ISBN accepted
    at ingestion is returned unchanged, and the identifier builder, given
    it and a parent that is in the store, never raises: it appends to
    the parent one [ProductIdentifier] with [ProductIDType] ["15"] and
    the ISBN as [IDValue], and changes nothing else. *)
Theorem validated_isbn_is_encoded v isbn product_elem w :
  validate_isbn v = Ok isbn ->
  (product_elem < length (w_nodes w))%nat ->
  isbn = v
  /\ fst (_create_product_identifiers product_elem (Some isbn) w) = Ok tt
  /\ w_nodes (snd (_create_product_identifiers product_elem (Some isbn) w))
     = graft (w_nodes w) product_elem
         (Elem "ProductIdentifier" None [] None
            [Elem "ProductIDType" None [] (Some "15") [];
             Elem "IDValue" None [] (Some v) []])
  /\ w_db (snd (_create_product_identifiers product_elem (Some isbn) w))
     = w_db w.
Proof.
  intros Hvalid Hparent.
  destruct (validate_isbn_Ok _ _ Hvalid) as (-> & _ & Hxml).
  split; [done|].
  destruct (_create_product_identifiers_refines (w_clock w) product_elem
              (Some v) w eq_refl Hparent) as (Hout & Hframe & Hnodes).
  assert (Htree : product_identifiers_tree (Some v)
                  = Ok [product_identifier_elem (Some v)]).
  { unfold product_identifiers_tree.
    by rewrite leaf_PStr, leaf_py_opt by done. }
  rewrite Htree in Hout. split.
  - destruct (fst (_create_product_identifiers product_elem (Some v) w))
      as [[]|e]; [done | discriminate].
  - split; [apply (Hnodes _ Htree)|]. by destruct Hframe as (_ & Hdb & _).
Qed.

(** ** The export endpoint *)

Lemma filter_no_match {A} (P : A -> bool) (l : list A) :
  (forall x, In x l -> P x = false) ->
  filter (fun x => P x = true) l = [].
Proof.
  induction l as [|a l IH]; intros H; [done|].
  rewrite filter_cons. destruct (decide (P a = true)) as [E|_].
  - rewrite H in E; [done | by left].
  - apply IH. intros x Hx. apply H. by right.
Qed.

Lemma filter_singleton_inv {A} (P : A -> bool) (l : list A) x :
  filter (fun x => P x = true) l = [x] -> In x l /\ P x = true.
Proof.
  intros H.
  assert (Hx : x ∈ filter (fun x => P x = true) l)
    by (rewrite H; apply list_elem_of_here).
  apply list_elem_of_filter in Hx as (HP & Hx).
  split; [by apply list_elem_of_In | done].
Qed.

(** The rows the export reads for a product: the authors whose ids its
    associations name (lines 112-116), the publisher rows (lines
    118-121) and the collection rows (lines 123-128) with the ids it
    refers to. *)
Definition author_rows (db : database) (product : Product.t)
  : list Author.t :=
  filter (fun a => existsb (Z.eqb (Author.id a))
                     (map ProductAuthor.author_id (Product.authors product))
                   = true)
         (authors db).

Definition publisher_rows (db : database) (product : Product.t)
  : list Publisher.t :=
  match Product.publisher_id product with
  | Some publisher_id =>
      filter (fun pb => (Publisher.id pb =? publisher_id) = true)
             (publishers db)
  | None => []
  end.

Definition collection_rows (db : database) (product : Product.t)
  : list Collection.t :=
  match Product.collection_id product with
  | Some collection_id =>
      filter (fun c => (Collection.id c =? collection_id) = true)
             (collections db)
  | None => []
  end.

Lemma export_product_onix_Ok isbn w response w' :
  export_product_onix isbn w = (Ok response, w') ->
  exists product,
    In product (products (w_db w))
    /\ Product.isbn_13 product = Some isbn
    /\ (length (publisher_rows (w_db w) product) <= 1)%nat
    /\ (length (collection_rows (w_db w) product) <= 1)%nat
    /\ generate_product_xml
         (Generator "ONIX Book System" default_sender_email) product
         (author_rows (w_db w) product)
         (head (publisher_rows (w_db w) product))
         (Collection.title <$> head (collection_rows (w_db w) product)) w
       = (Ok (content response), w')
    /\ media_type response = "application/xml".
Proof.
  unfold export_product_onix, bind, db_execute, scalar_one_or_none, ret,
    raise.
  destruct (filter _ (products (w_db w))) as [|product [|? ?]] eqn:Hrows;
    [done| |done].
  apply filter_singleton_inv in Hrows as (Hin & Hisbn).
  assert (Hauthors :
            author_rows (w_db w) product
            = match Product.authors product with
              | [] => []
              | _ => author_rows (w_db w) product
              end).
  { unfold author_rows. destruct (Product.authors product); [|done].
    cbn [map existsb]. by rewrite (filter_no_match (fun _ => false)). }
  intros H. exists product. split; [done|]. split.
  { unfold isbn_eqb in Hisbn. destruct (Product.isbn_13 product); [|done].
    by apply String.eqb_eq in Hisbn as ->. }
  rewrite Hauthors. clear Hauthors. unfold author_rows.
  unfold publisher_rows, collection_rows.
  destruct (Product.authors product) as [|pa pas];
    (destruct (Product.publisher_id product) as [pid|];
     [destruct (filter _ (publishers (w_db w))) as [|pb [|? ?]];
      [| |done]|]);
    (destruct (Product.collection_id product) as [cid|];
     [destruct (filter _ (collections (w_db w))) as [|c [|? ?]];
      [| |done]|]);
    cbn [length head fmap option_fmap option_map];
    (match type of H with
     | context [generate_product_xml ?g ?p ?a ?pb ?ct w] =>
         destruct (generate_product_xml g p a pb ct w)
           as [[s|e] w1] eqn:Hgen; [|done]
     end);
    injection H as <- <-; repeat split; (lia || done).
Qed.

(** X14.  An unknown ISBN ([export_product_onix], lines 106-109).  When no
    product row has the requested ISBN the endpoint raises
    [HTTPException] 404 and leaves the state as it was: no element is
    allocated, the encoder is not called. *)
Theorem export_product_onix_not_found isbn w :
  (forall p, In p (products (w_db w)) -> Product.isbn_13 p <> Some isbn) ->
  export_product_onix isbn w = (Raise (HTTPException 404), w).
Proof.
  intros Hnone.
  unfold export_product_onix, bind, db_execute, scalar_one_or_none.
  rewrite (filter_no_match (fun p => isbn_eqb (Product.isbn_13 p) isbn));
    [done|].
  intros p Hp. specialize (Hnone p Hp). unfold isbn_eqb.
  destruct (Product.isbn_13 p) as [s|]; [|done].
  apply String.eqb_neq. congruence.
Qed.



(** ** Looking a product up ([get_product], [products.py] lines 93-100) *)

Definition get_product (isbn : string) : M Product.t :=
  result <- db_execute products (fun p => isbn_eqb (Product.isbn_13 p) isbn) ;;
  product <- scalar_one_or_none result ;;
  match product with
  | None => raise (HTTPException 404)
  | Some product => ret product
  end.

(** The constraint [unique=True] of [Product.isbn_13]: no two rows have
    the same ISBN. *)
Definition isbn_unique (rows : list Product.t) : Prop :=
  forall (i j : nat) p q s,
    rows !! i = Some p -> rows !! j = Some q ->
    Product.isbn_13 p = Some s -> Product.isbn_13 q = Some s ->
    i = j.

Lemma isbn_unique_tail p rows : isbn_unique (p :: rows) -> isbn_unique rows.
Proof.
  intros H i j x y s Hi Hj Hx Hy.
  assert (S i = S j) by (eapply (H (S i) (S j)); eauto). lia.
Qed.

Lemma isbn_eqb_Some column isbn :
  isbn_eqb column isbn = true <-> column = Some isbn.
Proof.
  unfold isbn_eqb. destruct column as [s|]; [|done].
  rewrite String.eqb_eq. split; congruence.
Qed.

Lemma filter_isbn_unique isbn rows :
  isbn_unique rows ->
  filter (fun p => isbn_eqb (Product.isbn_13 p) isbn = true) rows
  = match List.find (fun p => isbn_eqb (Product.isbn_13 p) isbn) rows with
    | Some p => [p]
    | None => []
    end.
Proof.
  induction rows as [|p rows IH]; intros Hunique; [done|].
  rewrite filter_cons. cbn [List.find].
  destruct (isbn_eqb (Product.isbn_13 p) isbn) eqn:Hp.
  - rewrite decide_True by done. f_equal.
    apply filter_no_match. intros q Hq.
    destruct (isbn_eqb (Product.isbn_13 q) isbn) eqn:Hqi; [|done].
    apply isbn_eqb_Some in Hp, Hqi.
    apply list_elem_of_In, list_elem_of_lookup in Hq as (j & Hj).
    by specialize (Hunique 0%nat (S j) p q isbn eq_refl Hj Hp Hqi).
  - rewrite decide_False by done.
    apply IH. by eapply isbn_unique_tail.
Qed.

(** X17.  Lookup by ISBN ([get_product]).  In a table that satisfies the
    unique constraint on [isbn_13], the lookup never raises
    [MultipleResultsFound]: it returns the first row with the requested
    ISBN, or raises [HTTPException] 404 when there is none, and leaves
    the state as it was. *)
Theorem get_product_finds isbn w :
  isbn_unique (products (w_db w)) ->
  get_product isbn w
  = (match List.find (fun p => isbn_eqb (Product.isbn_13 p) isbn)
             (products (w_db w)) with
     | Some product => Ok product
     | None => Raise (HTTPException 404)
     end, w).
Proof.
  intros Hunique. unfold get_product, bind, db_execute, scalar_one_or_none.
  rewrite (filter_isbn_unique _ _ Hunique).
  by destruct (List.find _ _).
Qed.
End Encoder.

(** * Examples

    The encoder run on concrete aggregates, with [quote] and
    [render_document] for the two library functions. *)

(** Evaluate a call and record that it returned. *)
Ltac returned run :=
  let s := eval vm_compute in
             (match fst run with Ok s => s | Raise _ => EmptyString end) in
  let w := eval vm_compute in (snd run) in
  assert (run = (Ok s, w)) by (vm_compute; reflexivity).










Lemma C8_witness :
  w_clock example_world = w_clock busy_world
  /\ fst (generate_product_xml quote render_document example_generator
            (priced_product example_onix_json) example_authors
            (Some example_publisher) (Some "Series") example_world)
     = fst (generate_product_xml quote render_document example_generator
              (priced_product example_onix_json) example_authors
              (Some example_publisher) (Some "Series") busy_world).
Proof.
  split; [reflexivity|].
  apply (C8_deterministic quote render_document). reflexivity.
Defined.


(** The export endpoint on the stored aggregate with authors
    [(B, seq=2), (A, seq=1)]: the authors come back in table order and
    the document lists B before A. *)
Example export_lists_authors_in_table_order :
  exists response w' doc,
    export_product_onix quote render_document "9780000000002" example_world
    = (Ok response, w')
    /\ media_type response = "application/xml"
    /\ built_document example_world w' = Some doc
    /\ render_document doc = Ok (content response)
    /\ texts ["Product"; "DescriptiveDetail"; "Contributor"; "PersonName"] doc
       = [Some "B"; Some "A"].
Proof.
  eexists _, _, _. split; [vm_compute; reflexivity|].
  repeat split; vm_compute; reflexivity.
Qed.

(** A sub-list that is [None] rather than empty cannot be iterated: the
    Collateral Detail builder raises [TypeError]. *)
Example none_sublist_raises :
  fst (generate_product_xml quote render_document example_generator
         (priced_product dumped_prices_json) [] None None example_world)
  = Raise TypeError.
Proof. vm_compute. reflexivity. Qed.

(** An unknown ISBN is answered with 404 before the encoder is called. *)
Example export_unknown_isbn :
  export_product_onix quote render_document "12345" example_world
  = (Raise (HTTPException 404), example_world).
Proof. vm_compute. reflexivity. Qed.

(** ** The further properties on concrete aggregates *)

(** An aggregate with two authors, a publisher, a collection and
    supplementary metadata, encoded in a store that already holds
    another document. *)
Definition mail_generator : OnixXmlGenerator :=
  Generator "Osnovy Export" "onix@example.com".

Definition full_run : result string * world :=
  generate_product_xml quote render_document mail_generator
    (priced_product example_onix_json) example_authors
    (Some example_publisher) (Some "Series") busy_world.


Ltac full_run_returned :=
  unfold full_run;
  returned (generate_product_xml quote render_document mail_generator
              (priced_product example_onix_json) example_authors
              (Some example_publisher) (Some "Series") busy_world).









(** Metadata stored as a list instead of a dict. *)
Lemma metadata_not_a_dict_raises_witness :
  fst (generate_product_xml quote render_document example_generator
         (priced_product (PList [PStr "prices"])) example_authors None None
         example_world)
  = Raise AttributeError.
Proof.
  apply (metadata_not_a_dict_raises quote render_document);
    [reflexivity | reflexivity | discriminate].
Defined.

(** Metadata as ingestion stores it when only prices were given. *)
Lemma text_content_not_iterable_raises_witness :
  fst (generate_product_xml quote render_document example_generator
         (priced_product dumped_prices_json) example_authors None None
         example_world)
  = Raise TypeError.
Proof.
  eapply (text_content_not_iterable_raises quote render_document);
    [reflexivity | reflexivity | reflexivity].
Defined.

(** A title with the control character U+0007. *)
Definition bell_title_product : Product.t :=
  {| Product.id := 44;
     Product.isbn_13 := Some "9780000000026";
     Product.title := String (ascii_of_nat 7) "Kobzar";
     Product.publisher_id := None;
     Product.collection_id := None;
     Product.product_form := None;
     Product.language := None;
     Product.onix_json := PNone;
     Product.authors := [] |}.

Lemma title_not_storable_raises_witness :
  fst (generate_product_xml quote render_document example_generator
         bell_title_product example_authors None None example_world)
  = Raise ValueError.
Proof.
  apply (title_not_storable_raises quote render_document); reflexivity.
Defined.

Lemma validated_isbn_is_encoded_witness :
  validate_isbn "9780000000002" = Ok "9780000000002"
  /\ fst (_create_product_identifiers 0%nat (Some "9780000000002") busy_world)
     = Ok tt
  /\ w_nodes
       (snd (_create_product_identifiers 0%nat (Some "9780000000002") busy_world))
     = graft (w_nodes busy_world) 0%nat
         (Elem "ProductIdentifier" None [] None
            [Elem "ProductIDType" None [] (Some "15") [];
             Elem "IDValue" None [] (Some "9780000000002") []]).
Proof.
  split; [reflexivity|].
  destruct (validated_isbn_is_encoded "9780000000002" "9780000000002"
              0%nat busy_world eq_refl)
    as (_ & Hok & Hnodes & _); [simpl; lia|].
  split; [exact Hok | exact Hnodes].
Defined.

(** Evaluate a request and record that it was answered. *)
Ltac responded run :=
  let r := eval vm_compute in
             (match fst run with
              | Ok r => r
              | Raise _ => MakeResponse "" ""
              end) in
  let w := eval vm_compute in (snd run) in
  assert (run = (Ok r, w)) by (vm_compute; reflexivity).

Lemma export_product_onix_not_found_witness :
  export_product_onix quote render_document "9780000000019" example_world
  = (Raise (HTTPException 404), example_world).
Proof.
  apply export_product_onix_not_found.
  intros p [<-|[]]. discriminate.
Defined.


(** A database in which the product [priced_product] refers to the
    publisher with id 7, which exists, and to the collection with id 99,
    which does not. *)
Definition dangling_product : Product.t :=
  {| Product.id := 43;
     Product.isbn_13 := Some "9780000000019";
     Product.title := "Eneida";
     Product.publisher_id := Some 7;
     Product.collection_id := Some 99;
     Product.product_form := Some "BB";
     Product.language := Some "ukr";
     Product.onix_json := PNone;
     Product.authors := [] |}.

Definition dangling_world : world :=
  {| w_clock := example_clock;
     w_db := {| products := [example_product; dangling_product];
                authors := [author_B; author_A];
                publishers := [example_publisher];
                collections := [Collection.Make 5 "Series" None] |};
     w_nodes := [] |}.


Lemma get_product_finds_witness :
  get_product "9780000000019" dangling_world
  = (Ok dangling_product, dangling_world)
  /\ get_product "9780000000033" dangling_world
     = (Raise (HTTPException 404), dangling_world).
Proof.
  assert (Hunique : isbn_unique (products (w_db dangling_world))).
  { intros [|[|i]] [|[|j]] p q s Hi Hj Hp Hq; try done;
      simpl in Hi, Hj; try discriminate;
      injection Hi as <-; injection Hj as <-; simpl in Hp, Hq; congruence. }
  split.
  - exact (get_product_finds "9780000000019" dangling_world Hunique).
  - exact (get_product_finds "9780000000033" dangling_world Hunique).
Defined.

(** * Ingestion

    The request schemas of [app/schemas/schemas.py] for the
    supplementary metadata, what [model_dump] makes of them for the
    [onix_json] column ([create_product], line 69), and the text that is
    embedded for a new product. *)

Module TextContent.
Record t := Make {
  text_type : string;
  content_audience : string;
  text : string
}.

Definition model_dump (tc : t) : pyval :=
  PDict [("text_type", PStr (text_type tc));
         ("content_audience", PStr (content_audience tc));
         ("text", PStr (text tc))].
End TextContent.

Module SupportingResource.
Record t := Make {
  resource_content_type : string;
  resource_mode : string;
  resource_link : string
}.

Definition model_dump (res : t) : pyval :=
  PDict [("resource_content_type", PStr (resource_content_type res));
         ("resource_mode", PStr (resource_mode res));
         ("resource_link", PStr (resource_link res))].
End SupportingResource.

(** [None] for an absent value of an [Optional] field. *)
Definition dump_optional {A} (dump : A -> pyval) (o : option A) : pyval :=
  match o with
  | Some a => dump a
  | None => PNone
  end.

Module Price.
Record t := Make {
  price_type : string;
  price_amount : float;
  currency_code : string;
  tax_rate_code : option string;
  tax_rate_percent : option float
}.

Definition model_dump (price : t) : pyval :=
  PDict [("price_type", PStr (price_type price));
         ("price_amount", PFloat (price_amount price));
         ("currency_code", PStr (currency_code price));
         ("tax_rate_code", dump_optional PStr (tax_rate_code price));
         ("tax_rate_percent", dump_optional PFloat (tax_rate_percent price))].
End Price.

Module OnixJson.
Record t := Make {
  text_content : option (list TextContent.t);
  supporting_resources : option (list SupportingResource.t);
  prices : option (list Price.t);
  subjects : option (list (list (string * pyval)));
  extra : option (list (string * pyval))
}.

Definition model_dump (onix_json : t) : pyval :=
  PDict [("text_content",
          dump_optional (fun l => PList (map TextContent.model_dump l))
            (text_content onix_json));
         ("supporting_resources",
          dump_optional (fun l => PList (map SupportingResource.model_dump l))
            (supporting_resources onix_json));
         ("prices",
          dump_optional (fun l => PList (map Price.model_dump l))
            (prices onix_json));
         ("subjects",
          dump_optional (fun l => PList (map PDict l)) (subjects onix_json));
         ("extra", dump_optional PDict (extra onix_json))].
End OnixJson.

(** The annotation [create_product] extracts for the embedding (lines
    51-54): the text of the first text content of type ["03"]. *)
Definition annotation_of (onix_json : option OnixJson.t) : option string :=
  match onix_json with
  | Some onix_json =>
      match OnixJson.text_content onix_json with
      | Some ((_ :: _) as text_content) =>
          let annotations :=
            map TextContent.text
              (List.filter
                 (fun tc => String.eqb (TextContent.text_type tc) "03")
                 text_content) in
          match annotations with
          | annotation :: _ => Some annotation
          | [] => None
          end
      | _ => None
      end
  | None => None
  end.

(** [EmbeddingService.create_product_text] *)
Definition create_product_text (title : string) (authors : list string)
    (annotation : option string) : string :=
  let authors_text :=
    match authors with
    | [] => ""
    | _ => String.concat ", " authors
    end in
  let parts := [title] in
  let parts :=
    if str_truthy authors_text then parts ++ ["by " +:+ authors_text]
    else parts in
  let parts :=
    match annotation with
    | Some a => if str_truthy a then parts ++ [a] else parts
    | None => parts
    end in
  String.concat " " parts.

(** The texts of typed metadata that lxml can store. *)
Definition text_content_ok (tc : TextContent.t) : bool :=
  xml_compatible (TextContent.text_type tc)
  && xml_compatible (TextContent.content_audience tc)
  && xml_compatible (TextContent.text tc).

Definition supporting_resource_ok (res : SupportingResource.t) : bool :=
  xml_compatible (SupportingResource.resource_content_type res)
  && xml_compatible (SupportingResource.resource_mode res)
  && xml_compatible (SupportingResource.resource_link res).

Definition price_ok (price : Price.t) : bool :=
  xml_compatible (Price.price_type price)
  && xml_compatible (Price.currency_code price)
  && text_ok (Price.tax_rate_code price).

Definition items {A} (o : option (list A)) : list A :=
  match o with
  | Some l => l
  | None => []
  end.

Definition onix_json_ok (onix_json : OnixJson.t) : bool :=
  forallb text_content_ok (items (OnixJson.text_content onix_json))
  && forallb supporting_resource_ok
       (items (OnixJson.supporting_resources onix_json))
  && forallb price_ok (items (OnixJson.prices onix_json)).

(** ** Typed metadata and the encoder *)

Lemma printableb_layout ds decpt :
  printableb ds = true -> printableb (FloatRepr.layout ds decpt) = true.
Proof.
  intros Hds. unfold FloatRepr.layout, FloatRepr.exponent_part. cbv zeta.
  destruct ((decpt <=? -4) || (16 <? decpt)).
  - destruct ds as [|c rest]; [done|].
    rewrite printableb_String in Hds. apply andb_prop in Hds as (Hc & Hrest).
    change (String c ?a +:+ ?b) with (String c (a +:+ b)).
    rewrite printableb_String, Hc, printableb_app, printableb_app,
      printableb_pad.
    cbn [andb]. rewrite andb_true_r.
    destruct rest as [|c' rest']; [by destruct (_ <? 0)|].
    rewrite printableb_app, Hrest. by destruct (_ <? 0).
  - destruct (decpt <=? 0).
    + by rewrite !printableb_app, printableb_zeros, Hds.
    + destruct (decpt <? _).
      * rewrite !printableb_app.
        by rewrite !printableb_substring by done.
      * by rewrite !printableb_app, printableb_zeros, Hds.
Qed.

Lemma printableb_repr f : printableb (FloatRepr.repr f) = true.
Proof.
  unfold FloatRepr.repr.
  destruct (Prim2SF f) as [s|s| |s m e]; [by destruct s..|done|].
  unfold FloatRepr.shortest.
  destruct (FloatRepr.interval (Z.pos m) e) as [[[lo v] hi] d].
  destruct (FloatRepr.shortest_go 18 _ _ _ _ _ _ _) as [c k].
  destruct (FloatRepr.strip_zeros 20 _ _) as [c' k'].
  rewrite printableb_app, printableb_layout by apply printableb_str_int.
  by destruct s.
Qed.

Lemma rconcat_singletons {A} (f : A -> result (list xml)) (l : list A) :
  (forall x, In x l -> exists e, f x = Ok [e]) ->
  exists es, rconcat f l = Ok es.
Proof.
  induction l as [|x l IH]; intros H; [by exists []|].
  destruct (H x) as (e & He); [by left|].
  destruct IH as (es & Hes); [intros y Hy; apply H; by right|].
  exists (e :: es). cbn [rconcat]. by rewrite He, Hes.
Qed.

Lemma text_contents_dumped l :
  forallb text_content_ok l = true ->
  exists es,
    rconcat text_content_tree (map TextContent.model_dump l) = Ok es.
Proof.
  intros Hl. apply rconcat_singletons. intros x Hx.
  apply in_map_iff in Hx as (tc & <- & Htc).
  rewrite forallb_forall in Hl. specialize (Hl tc Htc).
  unfold text_content_ok in Hl.
  apply andb_prop in Hl as (Hl & Htext). apply andb_prop in Hl as (Htype & Haud).
  unfold text_content_tree, TextContent.model_dump. cbn [py_get assoc rbind].
  cbn. rewrite !leaf_PStr by done. by eexists.
Qed.

Lemma supporting_resources_dumped l :
  forallb supporting_resource_ok l = true ->
  exists es,
    rconcat supporting_resource_tree (map SupportingResource.model_dump l)
    = Ok es.
Proof.
  intros Hl. apply rconcat_singletons. intros x Hx.
  apply in_map_iff in Hx as (res & <- & Hres).
  rewrite forallb_forall in Hl. specialize (Hl res Hres).
  unfold supporting_resource_ok in Hl.
  apply andb_prop in Hl as (Hl & Hlink).
  apply andb_prop in Hl as (Htype & Hmode).
  unfold supporting_resource_tree, SupportingResource.model_dump.
  cbn. rewrite !leaf_PStr by done. by eexists.
Qed.

Section Ingestion.

Variable repr_str : string -> string.
Variable etree_tostring : xml -> result string.

Lemma prices_dumped l :
  forallb price_ok l = true ->
  exists es, rconcat (price_tree repr_str) (map Price.model_dump l) = Ok es.
Proof.
  intros Hl. apply rconcat_singletons. intros x Hx.
  apply in_map_iff in Hx as (price & <- & Hprice).
  rewrite forallb_forall in Hl. specialize (Hl price Hprice).
  unfold price_ok in Hl.
  apply andb_prop in Hl as (Hl & Hcode).
  apply andb_prop in Hl as (Htype & Hcurrency).
  unfold price_tree, tax_tree, Price.model_dump.
  cbn.
  rewrite !leaf_PStr
    by (done || apply xml_compatible_printable, printableb_repr).
  destruct (Price.tax_rate_percent price) as [rate|]; cbn; [|by eexists].
  destruct (negb (PrimFloat.eqb rate 0)); [|by eexists].
  rewrite !leaf_PStr
    by (done || apply xml_compatible_printable, printableb_repr).
  destruct (Price.tax_rate_code price) as [code|]; cbn.
  - cbn in Hcode. rewrite leaf_PStr by done. by eexists.
  - by eexists.
Qed.

Lemma product_supply_dumped onix_json :
  forallb price_ok (items (OnixJson.prices onix_json)) = true ->
  exists es,
    product_supply_tree repr_str (OnixJson.model_dump onix_json) = Ok es.
Proof.
  intros Hprices. unfold product_supply_tree, prices_of, OnixJson.model_dump.
  cbn.
  destruct (OnixJson.prices onix_json) as [[|price l]|]; cbn;
    [by eexists| |by eexists].
  destruct (prices_dumped (price :: l) Hprices) as (es & Hes).
  cbn [map] in Hes. cbn in Hes |- *. rewrite Hes. by eexists.
Qed.


(** X19.  Metadata with a sub-list left out cannot be exported
    ([create_product], line 69, with [_create_collateral_detail], lines
    90-99).  For an aggregate whose [onix_json] is the dump of request
    metadata in which [text_content] or [supporting_resources] was left
    out, so that the dump holds [None] under that key, and whose texts
    lxml can store, the encoder raises [TypeError], also when prices are
    given. *)
Theorem dumped_metadata_without_sublist_raises
    self product authors publisher collection_title w onix_json :
  texts_ok self product authors publisher collection_title = true ->
  Product.onix_json product = OnixJson.model_dump onix_json ->
  onix_json_ok onix_json = true ->
  OnixJson.text_content onix_json = None
  \/ OnixJson.supporting_resources onix_json = None ->
  fst (generate_product_xml repr_str etree_tostring self product authors
         publisher collection_title w)
  = Raise TypeError.
Proof.
  intros Htexts Hjson Hok Hnone. apply generate_raises; [done|].
  unfold onix_json_ok in Hok.
  apply andb_prop in Hok as (Hok & _).
  apply andb_prop in Hok as (Htc_ok & _).
  unfold metadata_trees. rewrite Hjson.
  unfold collateral_detail_tree, OnixJson.model_dump.
  destruct (OnixJson.text_content onix_json) as [tcs|]; [|done].
  destruct Hnone as [|Hrs]; [done|]. rewrite Hrs. cbn [items] in Htc_ok.
  destruct (text_contents_dumped _ Htc_ok) as (tes & Htes).
  cbn. by rewrite Htes.
Qed.

End Ingestion.

(** ** The text that is embedded *)

Lemma head_map_filter {A B} (f : A -> B) (p : A -> bool) (l : list A) :
  match map f (List.filter p l) with
  | b :: _ => Some b
  | [] => None
  end
  = f <$> List.find p l.
Proof.
  induction l as [|a l IH]; [done|].
  cbn [List.filter List.find]. by destruct (p a).
Qed.

(** X20.  The annotation ([create_product], lines 51-54).  The annotation is
    the text of the first text content of type ["03"], in the order of
    the request; there is none when no text content has this type, when
    [text_content] is empty or left out, and when there is no metadata.
    Text contents after the first of type ["03"] are not read, also when
    the text of that first one is empty. *)
Theorem annotation_is_first_description onix_json :
  annotation_of onix_json
  = match onix_json with
    | Some onix_json =>
        TextContent.text
        <$> List.find (fun tc => String.eqb (TextContent.text_type tc) "03")
              (items (OnixJson.text_content onix_json))
    | None => None
    end.
Proof.
  destruct onix_json as [onix_json|]; [|done]. unfold annotation_of.
  destruct (OnixJson.text_content onix_json) as [[|tc l]|]; try done.
  cbv zeta. cbn [items].
  exact (head_map_filter TextContent.text _ (tc :: l)).
Qed.

Lemma append_nil_r (s : string) : s +:+ "" = s.
Proof.
  induction s as [|c s IH]; [done|].
  change (String c (s +:+ "") = String c s). by rewrite IH.
Qed.

Lemma append_assoc (a b c : string) : (a +:+ b) +:+ c = a +:+ (b +:+ c).
Proof.
  induction a as [|x a IH]; [done|].
  change (String x ((a +:+ b) +:+ c) = String x (a +:+ (b +:+ c))).
  by rewrite IH.
Qed.

(** X21.  The embedded text ([EmbeddingService.create_product_text]).  The
    text begins with the title; when the author names joined by [", "]
    are not empty it goes on with [" by "] and the joined names; when
    there is an annotation that is not empty it ends with a space and
    the annotation.  Nothing is added for an empty list of names, for
    a single empty name, or for an empty annotation. *)
Theorem create_product_text_parts title authors annotation :
  create_product_text title authors annotation
  = title
    +:+ (if str_truthy (String.concat ", " authors)
         then " by " +:+ String.concat ", " authors
         else "")
    +:+ (match annotation with
         | Some a => if str_truthy a then " " +:+ a else ""
         | None => ""
         end).
Proof.
  unfold create_product_text. cbv zeta.
  assert (Hjoin : match authors with
                  | [] => ""
                  | _ => String.concat ", " authors
                  end = String.concat ", " authors) by by destruct authors.
  rewrite Hjoin. clear Hjoin.
  destruct (str_truthy (String.concat ", " authors));
    destruct annotation as [a|]; try destruct (str_truthy a);
    cbn [app String.concat];
    rewrite ?append_nil_r, ?append_assoc; reflexivity.
Qed.

(** * Search ([hybrid_search], [app/api/products.py] lines 143-161) *)

Module SearchQuery.
Record t := Make {
  query : string;
  publisher_id : option uuid;
  language : option string;
  limit : Z
}.
End SearchQuery.

Definition newline : string := String (ascii_of_nat 10) "".

(** [str(l)] for a list of floats. *)
Definition str_floats (l : list float) : string :=
  "[" +:+ String.concat ", " (map FloatRepr.repr l) +:+ "]".

(** The statement and the parameters that [hybrid_search] passes to
    [db.execute] for the embedding [query_embedding] of the query
    text. *)
Definition search_statement (query_embedding : list float)
    (query : SearchQuery.t) : string * list (string * pyval) :=
  let sql :=
    newline +:+ "        SELECT p.*, "
    +:+ newline
    +:+ "               1 - (p.embedding <=> :embedding::vector) as similarity"
    +:+ newline +:+ "        FROM products p"
    +:+ newline +:+ "        WHERE 1=1"
    +:+ newline +:+ "    " in
  let params := [("embedding", PStr (str_floats query_embedding))] in
  let '(sql, params) :=
    match SearchQuery.publisher_id query with
    | Some publisher_id =>
        (sql +:+ " AND p.publisher_id = :publisher_id",
         params ++ [("publisher_id", PStr (str_uuid publisher_id))])
    | None => (sql, params)
    end in
  let '(sql, params) :=
    if opt_truthy (SearchQuery.language query)
    then (sql +:+ " AND p.language = :language",
          params ++ [("language", py_opt (SearchQuery.language query))])
    else (sql, params) in
  (sql +:+ " ORDER BY similarity DESC LIMIT :limit",
   params ++ [("limit", PInt (SearchQuery.limit query))]).

(** Whether an optional value is given. *)
Definition given {A} (o : option A) : bool :=
  match o with
  | Some _ => true
  | None => false
  end.

(** X22.  The search statement ([hybrid_search], lines 143-161).  The SQL
    text depends only on which filters are used, a publisher id that is
    given and a language that is not empty: no value of the request, no
    query text, embedding, id, language or limit, is spliced into it.
    The values are bound as parameters, under the keys [embedding],
    [publisher_id] and [language] for the filters used, and [limit], in
    this order, the language as given and the limit as an integer. *)
Theorem search_statement_binds_values e e' query query' :
  given (SearchQuery.publisher_id query)
  = given (SearchQuery.publisher_id query') ->
  opt_truthy (SearchQuery.language query)
  = opt_truthy (SearchQuery.language query') ->
  fst (search_statement e query) = fst (search_statement e' query')
  /\ map fst (snd (search_statement e query))
     = ["embedding"]
       ++ (if given (SearchQuery.publisher_id query)
           then ["publisher_id"] else [])
       ++ (if opt_truthy (SearchQuery.language query)
           then ["language"] else [])
       ++ ["limit"]
  /\ assoc "limit" (snd (search_statement e query))
     = Some (PInt (SearchQuery.limit query))
  /\ (opt_truthy (SearchQuery.language query) = true ->
      assoc "language" (snd (search_statement e query))
      = PStr <$> SearchQuery.language query).
Proof.
  intros Hpublisher Hlanguage. unfold search_statement. cbv zeta.
  rewrite <- Hlanguage.
  destruct (SearchQuery.publisher_id query) as [pid|],
    (SearchQuery.publisher_id query') as [pid'|]; try discriminate;
    destruct (SearchQuery.language query) as [l|];
    cbn [opt_truthy]; try destruct (str_truthy l);
    cbn [fst snd given map app assoc py_opt fmap option_fmap option_map];
    repeat split; try done; try (intros; reflexivity).
Qed.

(** ** Ingested metadata on concrete requests *)

Definition example_price : Price.t :=
  Price.Make "01" 250%float "UAH" (Some "S") (Some 20%float).

(** Request metadata with all three sub-lists. *)
Definition complete_metadata : OnixJson.t :=
  {| OnixJson.text_content :=
       Some [TextContent.Make "03" "00" "A collection of poems."];
     OnixJson.supporting_resources := Some [];
     OnixJson.prices := Some [example_price];
     OnixJson.subjects := None;
     OnixJson.extra := None |}.

(** Request metadata with prices only. *)
Definition prices_only_metadata : OnixJson.t :=
  {| OnixJson.text_content := None;
     OnixJson.supporting_resources := None;
     OnixJson.prices := Some [example_price];
     OnixJson.subjects := None;
     OnixJson.extra := None |}.


Lemma dumped_metadata_without_sublist_raises_witness :
  OnixJson.model_dump prices_only_metadata = dumped_prices_json
  /\ fst (generate_product_xml quote render_document example_generator
            (priced_product (OnixJson.model_dump prices_only_metadata))
            example_authors (Some example_publisher) None example_world)
     = Raise TypeError.
Proof.
  split; [reflexivity|].
  apply (dumped_metadata_without_sublist_raises quote render_document
           example_generator _ _ _ _ _ prices_only_metadata);
    [reflexivity | reflexivity | reflexivity | left; reflexivity].
Defined.

(** Two searches with the same filters and different values, one of
    them with SQL in the language field. *)
Definition plain_query : SearchQuery.t :=
  SearchQuery.Make "poems" (Some 7) (Some "ukr") 10.

Definition hostile_query : SearchQuery.t :=
  SearchQuery.Make "x" (Some 8) (Some "' OR 1=1; DROP TABLE products; --") 5.

Lemma search_statement_binds_values_witness :
  fst (search_statement [0.5%float] plain_query)
  = fst (search_statement [] hostile_query)
  /\ map fst (snd (search_statement [] hostile_query))
     = ["embedding"; "publisher_id"; "language"; "limit"]
  /\ assoc "language" (snd (search_statement [] hostile_query))
     = Some (PStr "' OR 1=1; DROP TABLE products; --").
Proof.
  destruct (search_statement_binds_values [0.5%float] [] plain_query
              hostile_query eq_refl eq_refl) as (Hsql & _).
  destruct (search_statement_binds_values [] [] hostile_query
              hostile_query eq_refl eq_refl) as (_ & Hkeys & _ & Hlanguage).
  split; [exact Hsql|]. split; [exact Hkeys|]. exact (Hlanguage eq_refl).
Defined.
